(** * ScriptedRotation: a rotation model implemented by a Lua script

    Shallow embedding of [src/celephem/scriptrotation.cpp] together with the
    part of the embedded Lua C API that file calls.

    - A C++ [double] is a primitive binary64 [float]; [==], [!=], [<] and [-]
      are the IEEE operations ([NaN] compares unequal to everything).
    - The Lua engine is a record holding the C stack, the global table and
      the table store.  Script functions are opaque: what a call does is
      given by a [Runtime], the interpretation of the loaded scripts.
    - The methods thread the process state ([World]) with a small state
      monad, one bind per statement of the source.
    - A [std::string] handed to the Lua API through [c_str()] reaches it as
      a C string, cut at its first NUL. *)

From Stdlib Require Import Floats ZArith.
From stdpp Require Import gmap strings list pretty.

Local Open Scope string_scope.
Local Open Scope Z_scope.

(** ** The embedded engine *)

Module Lua.

Abbreviation tableref := positive.
Abbreviation funref := positive.

(** Lua values.  Tables and functions are references. *)
Inductive value :=
| VNil
| VBoolean (b : bool)
| VNumber (n : float)
| VString (s : string)
| VTable (t : tableref)
| VFunction (f : funref)
| VUserdata (u : positive).

(** What scripts can see and change: globals and tables.  Tables are
    modelled on their string keys, the only keys the host code uses, and
    without metatables. *)
Record store := Store {
  globals : gmap string value;
  tables : gmap tableref (gmap string value)
}.

Inductive outcome :=
| Returns (results : list value)
| Raises (err : value).

(** The scripts loaded in the engine, and Lua's number/text coercions. *)
Class Runtime := {
  call_function : funref → list value → store → outcome * store;
  str2number : string → option float;
  number2str : float → string
}.

(** Ghost record of the API calls the host made, most recent first. *)
Inductive api_event :=
| GetGlobal (name : string)
| SetGlobal (name : string)
| PCall (f : value) (args : list value)
| Push
| Pop (n : nat)
| Query
| NewTable
| GetTable
| SetTable.

Record lua_State := State {
  stack : list value;          (* head = top of the stack *)
  mem : store;
  trace : list api_event
}.

Definition is_table (v : value) : bool :=
  match v with VTable _ => true | _ => false end.

Definition is_function (v : value) : bool :=
  match v with VFunction _ => true | _ => false end.

Definition type_name (v : value) : string :=
  match v with
  | VNil => "nil"
  | VBoolean _ => "boolean"
  | VNumber _ => "number"
  | VString _ => "string"
  | VTable _ => "table"
  | VFunction _ => "function"
  | VUserdata _ => "userdata"
  end.

(** Position, counted from the top, of an acceptable index: negative
    indices are relative to the top, positive ones absolute. *)
Definition index2pos (idx : Z) (st : list value) : option nat :=
  match idx with
  | Z.neg p => Some (Nat.pred (Pos.to_nat p))
  | Z.pos p =>
      if (Pos.to_nat p <=? length st)%nat
      then Some (length st - Pos.to_nat p)%nat
      else None
  | Z0 => None
  end.

(** The value at an index; an empty slot reads as nil. *)
Definition index (idx : Z) (st : list value) : value :=
  default VNil (p ← index2pos idx st; st !! p).

Definition get_global (name : string) (m : store) : value :=
  default VNil (globals m !! name).

Definition get_field (t : tableref) (key : string) (m : store) : value :=
  default VNil (tbl ← tables m !! t; tbl !! key).

(** [t[k]]: nil unless [t] is a table and [k] a string. *)
Definition rawget (t k : value) (m : store) : value :=
  match t, k with
  | VTable r, VString key => get_field r key m
  | _, _ => VNil
  end.

(** Storing nil erases the entry. *)
Definition store_entry (key : string) (v : value) (tbl : gmap string value)
  : gmap string value :=
  match v with
  | VNil => delete key tbl
  | _ => <[key := v]> tbl
  end.

Definition rawset (t k v : value) (m : store) : store :=
  match t, k with
  | VTable r, VString key =>
      Store (globals m)
            (<[r := store_entry key v (default ∅ (tables m !! r))]> (tables m))
  | _, _ => m
  end.

Definition log_call (e : api_event) (L : lua_State) : lua_State :=
  State (stack L) (mem L) (e :: trace L).

Definition push (v : value) (L : lua_State) : lua_State :=
  State (v :: stack L) (mem L) (trace L).

Definition getglobal (name : string) (L : lua_State) : lua_State :=
  push (get_global name (mem L)) (log_call (GetGlobal name) L).

(** Pops the top value and binds it to the global [name]. *)
Definition setglobal (name : string) (L : lua_State) : lua_State :=
  State (drop 1 (stack L))
        (Store (store_entry name (index (-1) (stack L)) (globals (mem L)))
               (tables (mem L)))
        (SetGlobal name :: trace L).

Definition pushstring (s : string) (L : lua_State) : lua_State :=
  push (VString s) (log_call Push L).

Definition pushnumber (n : float) (L : lua_State) : lua_State :=
  push (VNumber n) (log_call Push L).

Definition pushboolean (b : bool) (L : lua_State) : lua_State :=
  push (VBoolean b) (log_call Push L).

Definition pushvalue (idx : Z) (L : lua_State) : lua_State :=
  push (index idx (stack L)) (log_call Push L).

Definition pop (n : nat) (L : lua_State) : lua_State :=
  State (drop n (stack L)) (mem L) (Pop n :: trace L).

Definition newtable (L : lua_State) : lua_State :=
  let r := fresh (dom (tables (mem L))) in
  State (VTable r :: stack L)
        (Store (globals (mem L)) (<[r := ∅]> (tables (mem L))))
        (NewTable :: trace L).

(** Replaces the key on top of the stack by [t[key]], [t] at [idx]. *)
Definition gettable (idx : Z) (L : lua_State) : lua_State :=
  State (rawget (index idx (stack L)) (index (-1) (stack L)) (mem L)
           :: drop 1 (stack L))
        (mem L) (GetTable :: trace L).

(** [t[key] = v] with [v] on top and [key] below it; pops both. *)
Definition settable (idx : Z) (L : lua_State) : lua_State :=
  State (drop 2 (stack L))
        (rawset (index idx (stack L)) (index (-2) (stack L))
                (index (-1) (stack L)) (mem L))
        (SetTable :: trace L).

Definition istable (idx : Z) (L : lua_State) : bool * lua_State :=
  (is_table (index idx (stack L)), log_call Query L).

Definition isfunction (idx : Z) (L : lua_State) : bool * lua_State :=
  (is_function (index idx (stack L)), log_call Query L).

Section WithRuntime.
Context {rt : Runtime}.

(** Numbers, and strings that read as numbers. *)
Definition to_number (v : value) : option float :=
  match v with
  | VNumber n => Some n
  | VString s => str2number s
  | _ => None
  end.

Definition isnumber (idx : Z) (L : lua_State) : bool * lua_State :=
  (bool_decide (is_Some (to_number (index idx (stack L)))), log_call Query L).

(** 0 when the value is not a number. *)
Definition tonumber (idx : Z) (L : lua_State) : float * lua_State :=
  (default 0%float (to_number (index idx (stack L))), log_call Query L).

(** The text of a string or number, NULL otherwise; a number is
    converted to a string in its stack slot. *)
Definition tostring (idx : Z) (L : lua_State) : option string * lua_State :=
  match index idx (stack L) with
  | VString s => (Some s, log_call Query L)
  | VNumber n =>
      let s := number2str n in
      (Some s,
       State (default (stack L)
                (p ← index2pos idx (stack L); Some (<[p := VString s]> (stack L))))
             (mem L) (Query :: trace L))
  | _ => (None, log_call Query L)
  end.

Definition call (f : value) (args : list value) (m : store) : outcome * store :=
  match f with
  | VFunction r => call_function r args m
  | _ => (Raises (VString ("attempt to call a " +:+ type_name f +:+ " value")), m)
  end.

(** Exactly [n] results: missing ones are nil, extra ones dropped. *)
Definition adjust (n : nat) (vs : list value) : list value :=
  take n (vs ++ replicate n VNil).

Definition LUA_ERRRUN : Z := 2.

(** Protected call, no message handler: pops the function and its
    [nargs] arguments; pushes [nresults] results and returns 0, or
    pushes the error value and returns an error code. *)
Definition pcall (nargs nresults : nat) (L : lua_State) : Z * lua_State :=
  let args := rev (take nargs (stack L)) in
  let f := default VNil (stack L !! nargs) in
  let rest := drop (S nargs) (stack L) in
  let tr := PCall f args :: trace L in
  match call f args (mem L) with
  | (Returns vs, m) => (0, State (rev (adjust nresults vs) ++ rest) m tr)
  | (Raises e, m) => (LUA_ERRRUN, State (e :: rest) m tr)
  end.

End WithRuntime.

(** Script calls made so far. *)
Definition is_pcall (e : api_event) : bool :=
  match e with PCall _ _ => true | _ => false end.

Definition script_calls (L : lua_State) : nat :=
  length (filter is_pcall (trace L)).

End Lua.

Export Lua.


(** ** Process state and the host-side helpers *)

(** There is one engine per process, so a [lua_State*] is either null or
    points to it. *)
Inductive lua_State_ptr := nullptr | shared_state.

Inductive Level := Error | Warning | Info | Verbose | Debug.

(** A message handed to the logger: its level, its format string and the
    text arguments (a C string may be NULL). *)
Record log_entry := LogEntry {
  level : Level;
  format : string;
  arguments : list (option string)
}.

Record World := MkWorld {
  engine : lua_State;                    (* the shared script context *)
  scriptedObjectContext : lua_State_ptr; (* null while scripting is disabled *)
  logger : list log_entry;               (* most recent first *)
  nameIndex : N                          (* counter of generated names *)
}.

Definition M (A : Type) : Type := World → A * World.

Definition ret {A} (a : A) : M A := λ w, (a, w).
Definition bind {A B} (m : M A) (f : A → M B) : M B := λ w,
  let '(a, w') := m w in f a w'.

Declare Scope prog_scope.
Delimit Scope prog_scope with prog.
Bind Scope prog_scope with M.
Notation "x ← y ; z" := (bind y (λ x, z))
  (at level 20, y at level 100, z at level 200, only parsing) : prog_scope.
Notation "y ;; z" := (bind y (λ _, z))
  (at level 100, z at level 200, only parsing, right associativity) : prog_scope.
Local Open Scope prog_scope.

Definition set_engine (L : lua_State) (w : World) : World :=
  MkWorld L (scriptedObjectContext w) (logger w) (nameIndex w).

(** An API call on the engine [p] points to.  Calling through a null
    pointer is undefined in C++ and given no effect here; the code below
    never does it once [initialize] has passed its null check. *)
Definition with_engine {A} (p : lua_State_ptr) (dflt : A)
    (op : lua_State → A * lua_State) : M A := λ w,
  match p with
  | shared_state => let '(a, L) := op (engine w) in (a, set_engine L w)
  | nullptr => (dflt, w)
  end.

Definition exec (p : lua_State_ptr) (op : lua_State → lua_State) : M unit :=
  with_engine p () (λ L, ((), op L)).

Definition lua_getglobal p (name : string) : M unit := exec p (getglobal name).
Definition lua_setglobal p (name : string) : M unit := exec p (setglobal name).
Definition lua_pushstring p (s : string) : M unit := exec p (pushstring s).
Definition lua_pushnumber p (n : float) : M unit := exec p (pushnumber n).
Definition lua_pushboolean p (b : bool) : M unit := exec p (pushboolean b).
Definition lua_pushvalue p (idx : Z) : M unit := exec p (pushvalue idx).
Definition lua_pop p (n : nat) : M unit := exec p (pop n).
Definition lua_newtable p : M unit := exec p newtable.
Definition lua_gettable p (idx : Z) : M unit := exec p (gettable idx).
Definition lua_settable p (idx : Z) : M unit := exec p (settable idx).
Definition lua_istable p (idx : Z) : M bool := with_engine p false (istable idx).
Definition lua_isfunction p (idx : Z) : M bool := with_engine p false (isfunction idx).

Definition GetLogger_log (lvl : Level) (fmt : string) (args : list (option string))
  : M unit := λ w,
  ((), MkWorld (engine w) (scriptedObjectContext w)
               (LogEntry lvl fmt args :: logger w) (nameIndex w)).

Definition nl : string := String (Ascii.ascii_of_nat 10) "".

(** Modelled from the spec: [GetScriptedObjectContext] of scriptobject.cpp,
    the process-wide handle to the engine, absent when scripting is
    unavailable. *)
Definition GetScriptedObjectContext : M lua_State_ptr := λ w,
  (scriptedObjectContext w, w).

(** Modelled from the spec: [GenerateScriptObjectName] of scriptobject.cpp,
    a fresh name per call, generated monotonically and never reused. *)
Definition GenerateScriptObjectName : M string := λ w,
  ("cel_script_object_" +:+ pretty (nameIndex w),
   MkWorld (engine w) (scriptedObjectContext w) (logger w) (N.succ (nameIndex w))).

(** Modelled from the spec: the parameter table ([Hash]) of a declaration,
    an ordered mapping from names to scalar or string values. *)
Inductive HashValue :=
| NumberValue (n : float)
| StringValue (s : string)
| BooleanValue (b : bool).

Abbreviation Hash := (list (string * HashValue)).

Section Helpers.
Context {rt : Runtime}.

Definition lua_isnumber p (idx : Z) : M bool := with_engine p false (isnumber idx).
Definition lua_tonumber p (idx : Z) : M float := with_engine p 0%float (tonumber idx).
Definition lua_tostring p (idx : Z) : M (option string) := with_engine p None (tostring idx).
Definition lua_pcall p (nargs nresults : nat) : M Z :=
  with_engine p LUA_ERRRUN (pcall nargs nresults).

(** Modelled from the spec: [SetLuaVariables] of scriptobject.cpp, which
    forwards the declared parameters verbatim into the table on top of
    the stack. *)
Fixpoint SetLuaVariables (state : lua_State_ptr) (parameters : Hash) : M unit :=
  match parameters with
  | [] => ret ()
  | (key, v) :: rest =>
      lua_pushstring state key ;;
      match v with
      | NumberValue n => lua_pushnumber state n
      | StringValue s => lua_pushstring state s
      | BooleanValue b => lua_pushboolean state b
      end ;;
      lua_settable state (-3) ;;
      SetLuaVariables state rest
  end.

(** Modelled from the spec: [SafeGetLuaNumber] of scriptobject.cpp, which
    reads an optional numeric field of the table at [tableIndex] and
    yields [defaultValue] when the field is absent. *)
Definition SafeGetLuaNumber (state : lua_State_ptr) (tableIndex : Z)
    (key : string) (defaultValue : float) : M float :=
  lua_pushstring state key ;;
  lua_gettable state (tableIndex - 1) ;;
  isnum ← lua_isnumber state (-1);
  v ← (if isnum then lua_tonumber state (-1) else ret defaultValue);
  lua_pop state 1 ;;
  ret v.

End Helpers.


(** ** The rotation model *)

(** [Eigen::Quaterniond], built from [(w, x, y, z)]. *)
Record Quaterniond := Quat { qw : float; qx : float; qy : float; qz : float }.

(** Modelled from the spec: the data members of [ScriptedRotation], which
    scriptrotation.h declares; [lastTime] and [lastOrientation] are the
    one-slot cache. *)
Record ScriptedRotation := MkRotation {
  luaState : lua_State_ptr;
  luaRotationObjectName : string;
  period : float;
  validRangeBegin : float;
  validRangeEnd : float;
  lastTime : float;
  lastOrientation : Quaterniond;
  cacheable : bool
}.

Definition set_luaState (p : lua_State_ptr) (r : ScriptedRotation) :=
  MkRotation p (luaRotationObjectName r) (period r) (validRangeBegin r)
             (validRangeEnd r) (lastTime r) (lastOrientation r) (cacheable r).

Definition set_luaRotationObjectName (n : string) (r : ScriptedRotation) :=
  MkRotation (luaState r) n (period r) (validRangeBegin r)
             (validRangeEnd r) (lastTime r) (lastOrientation r) (cacheable r).

Definition set_period (p : float) (r : ScriptedRotation) :=
  MkRotation (luaState r) (luaRotationObjectName r) p (validRangeBegin r)
             (validRangeEnd r) (lastTime r) (lastOrientation r) (cacheable r).

Definition set_validRangeBegin (b : float) (r : ScriptedRotation) :=
  MkRotation (luaState r) (luaRotationObjectName r) (period r) b
             (validRangeEnd r) (lastTime r) (lastOrientation r) (cacheable r).

Definition set_validRangeEnd (e : float) (r : ScriptedRotation) :=
  MkRotation (luaState r) (luaRotationObjectName r) (period r) (validRangeBegin r)
             e (lastTime r) (lastOrientation r) (cacheable r).

Definition set_lastOrientation (q : Quaterniond) (r : ScriptedRotation) :=
  MkRotation (luaState r) (luaRotationObjectName r) (period r) (validRangeBegin r)
             (validRangeEnd r) (lastTime r) q (cacheable r).

Definition set_lastTime (t : float) (r : ScriptedRotation) :=
  MkRotation (luaState r) (luaRotationObjectName r) (period r) (validRangeBegin r)
             (validRangeEnd r) t (lastOrientation r) (cacheable r).

(** [std::string::c_str()] as its callee reads it: a C string ends at the
    first NUL character, so what follows one in the [std::string] is not
    passed on. *)
Fixpoint c_str (s : string) : string :=
  match s with
  | EmptyString => EmptyString
  | String a s' =>
      if Ascii.eqb a Ascii.zero then EmptyString else String a (c_str s')
  end.

(** [moduleName != nullptr && !moduleName->empty()] *)
Definition module_requested (moduleName : option string) : bool :=
  match moduleName with
  | Some name => negb (String.eqb name "")
  | None => false
  end.

Section Methods.
Context {rt : Runtime}.

(** [ScriptedRotation::initialize]: the result pairs the returned flag with
    the object as the call leaves it. *)
Definition initialize (self : ScriptedRotation) (moduleName : option string)
    (funcName : string) (parameters : option Hash) (path : string)
  : M (bool * ScriptedRotation) :=
  match parameters with
  | None => ret (false, self)
  | Some parameters =>
    L ← GetScriptedObjectContext;
    let self := set_luaState L self in
    match L with
    | nullptr =>
        GetLogger_log Warning ("ScriptedRotations are currently disabled." +:+ nl) [] ;;
        ret (false, self)
    | _ =>
      loaded ←
        (if module_requested moduleName then
           lua_getglobal L "require" ;;
           isfun ← lua_isfunction L (-1);
           if negb isfun then
             GetLogger_log Error
               ("Cannot load ScriptedRotation package: 'require' function is unavailable"
                  +:+ nl) [] ;;
             lua_pop L 1 ;;
             ret false
           else
             lua_pushstring L (c_str (default "" moduleName)) ;;
             status ← lua_pcall L 1 1;
             if negb (status =? 0) then
               msg ← lua_tostring L (-1);
               GetLogger_log Error
                 ("Failed to load module for ScriptedRotation: {}" +:+ nl) [msg] ;;
               lua_pop L 1 ;;
               ret false
             else ret true
         else ret true);
      if negb loaded then ret (false, self) else
      (* Get the rotation generator function *)
      lua_getglobal L (c_str funcName) ;;
      isfun ← lua_isfunction L (-1);
      if negb isfun then
        lua_pop L 1 ;;
        GetLogger_log Error ("No Lua function named {} found." +:+ nl) [Some funcName] ;;
        ret (false, self)
      else
      (* Construct the table passed to the generator function *)
      lua_newtable L ;;
      SetLuaVariables L parameters ;;
      lua_pushstring L "AddonPath" ;;
      lua_pushstring L (c_str path) ;;
      lua_settable L (-3) ;;
      (* Call the generator function *)
      status ← lua_pcall L 1 1;
      if negb (status =? 0) then
        msg ← lua_tostring L (-1);
        GetLogger_log Error
          ("Error calling ScriptedRotation generator function: {}" +:+ nl) [msg] ;;
        lua_pop L 1 ;;
        ret (false, self)
      else
      istab ← lua_istable L (-1);
      if negb istab then
        GetLogger_log Error
          ("ScriptedRotation generator function returned bad value." +:+ nl) [] ;;
        lua_pop L 1 ;;
        ret (false, self)
      else
      name ← GenerateScriptObjectName;
      let self := set_luaRotationObjectName name self in
      (* Attach the name to the script rotation *)
      lua_pushvalue L (-1) ;;
      lua_setglobal L (c_str name) ;;
      (* Get the rest of the rotation parameters; they are all optional *)
      p ← SafeGetLuaNumber L (-1) "period" 0%float;
      let self := set_period p self in
      b ← SafeGetLuaNumber L (-1) "beginDate" 0%float;
      let self := set_validRangeBegin b self in
      e ← SafeGetLuaNumber L (-1) "endDate" 0%float;
      let self := set_validRangeEnd e self in
      (* Pop the rotation object off the stack *)
      lua_pop L 1 ;;
      (* Sanity check on the rotation parameters *)
      if (validRangeEnd self <? validRangeBegin self)%float then
        GetLogger_log Error ("Bad script rotation: valid range end < begin" +:+ nl) [] ;;
        ret (false, self)
      else ret (true, self)
    end
  end.

(** [ScriptedRotation::spin]: the result pairs the returned quaternion with
    the object, whose cache members the method may update. *)
Definition spin (self : ScriptedRotation) (tjd : float)
  : M (Quaterniond * ScriptedRotation) :=
  let L := luaState self in
  if negb (tjd =? lastTime self)%float || negb (cacheable self) then
    lua_getglobal L (c_str (luaRotationObjectName self)) ;;
    istab ← lua_istable L (-1);
    self ←
      (if istab then
         lua_pushstring L "orientation" ;;
         lua_gettable L (-2) ;;
         isfun ← lua_isfunction L (-1);
         if isfun then
           lua_pushvalue L (-2) ;;  (* push 'self' on stack *)
           lua_pushnumber L tjd ;;
           status ← lua_pcall L 2 4;
           if status =? 0 then
             w ← lua_tonumber L (-4);
             x ← lua_tonumber L (-3);
             y ← lua_tonumber L (-2);
             z ← lua_tonumber L (-1);
             let self := set_lastOrientation (Quat w x y z) self in
             lua_pop L 4 ;;
             ret (set_lastTime tjd self)
           else
             (* Function call failed for some reason *)
             msg ← lua_tostring L (-1);
             GetLogger_log Warning ("ScriptedRotation failed: {}" +:+ nl) [msg] ;;
             lua_pop L 1 ;;
             ret self
         else
           (* Bad orientation function *)
           lua_pop L 1 ;;
           ret self
       else
         (* The script rotation object disappeared *)
         ret self);
    (* Pop the script rotation object *)
    lua_pop L 1 ;;
    ret (lastOrientation self, self)
  else ret (lastOrientation self, self).

End Methods.

Definition getPeriod (self : ScriptedRotation) : float :=
  if (period self =? 0)%float
  then (validRangeEnd self - validRangeBegin self)%float
  else period self.

Definition isPeriodic (self : ScriptedRotation) : bool :=
  negb (period self =? 0)%float.

(** The two reference parameters are returned as a pair [(begin, end)]. *)
Definition getValidRange (self : ScriptedRotation) : float * float :=
  (validRangeBegin self, validRangeEnd self).


(** ** Observations on a state *)

(** The object registered under the model's generated name, which the code
    passes as a C string, and its [orientation] field. *)
Definition registered_object (self : ScriptedRotation) (L : lua_State) : value :=
  get_global (c_str (luaRotationObjectName self)) (mem L).

Definition orientation_of (self : ScriptedRotation) (L : lua_State) : value :=
  rawget (registered_object self L) (VString "orientation") (mem L).

(** The condition guarding the body of [spin]. *)
Definition cache_miss (self : ScriptedRotation) (tjd : float) : bool :=
  negb (tjd =? lastTime self)%float || negb (cacheable self).

(** The engine with [evs] more API calls on record. *)
Definition after_calls (evs : list api_event) (st : list value) (m : store)
    (w : World) : World :=
  set_engine (State st m (evs ++ trace (engine w))) w.

Definition add_log (e : log_entry) (w : World) : World :=
  MkWorld (engine w) (scriptedObjectContext w) (e :: logger w) (nameIndex w).

Definition hash_value (v : HashValue) : value :=
  match v with
  | NumberValue n => VNumber n
  | StringValue s => VString s
  | BooleanValue b => VBoolean b
  end.

(** The store and the call record after [SetLuaVariables] filled table [t]. *)
Definition store_parameters (t : value) (ps : Hash) (m : store) : store :=
  foldl (λ m kv, rawset t (VString kv.1) (hash_value kv.2) m) m ps.

(** The names the host bound with [lua_setglobal], most recent first. *)
Definition bound_names (tr : list api_event) : list string :=
  omap (λ e, match e with SetGlobal name => Some name | _ => None end) tr.

Definition parameters_trace (ps : Hash) (tr : list api_event) : list api_event :=
  foldl (λ tr _, SetTable :: Push :: Push :: tr) tr ps.

(** The result [r] of a method returning [v]: the object as [self'], the
    engine with stack [st] and store [m], [calls] as the script calls and
    [names] as the globals bound so far, [lg] as the log and [ni] as the next
    name index. *)
Definition leaves {A} (r : A * ScriptedRotation * World) (v : A)
    (self' : ScriptedRotation) (st : list value) (m : store)
    (calls : list api_event) (names : list string)
    (lg : list log_entry) (ni : N) : Prop :=
  r.1 = (v, self')
  ∧ stack (engine r.2) = st
  ∧ mem (engine r.2) = m
  ∧ filter is_pcall (trace (engine r.2)) = calls
  ∧ bound_names (trace (engine r.2)) = names
  ∧ logger r.2 = lg
  ∧ nameIndex r.2 = ni
  ∧ scriptedObjectContext r.2 = shared_state.

Section Vocabulary.
Context {rt : Runtime}.

(** The text [lua_tostring] gives for a value. *)
Definition text_of (v : value) : option string :=
  match v with
  | VString s => Some s
  | VNumber n => Some (number2str n)
  | _ => None
  end.

(** What [lua_tostring] leaves in the slot it read: a number is converted
    to its text in place. *)
Definition converted (v : value) : value :=
  match v with
  | VNumber n => VString (number2str n)
  | _ => v
  end.

(** The number [lua_tonumber] reads from the [i]-th of the results. *)
Definition result_number (vs : list value) (i : nat) : float :=
  default 0%float (to_number (default VNil (vs !! i))).

(** The number [SafeGetLuaNumber] reads from field [key] of [t]. *)
Definition number_field (t : value) (key : string) (dflt : float) (m : store)
  : float :=
  default dflt (to_number (rawget t (VString key) m)).

Definition field_trace (t : value) (key : string) (m : store)
    (tr : list api_event) : list api_event :=
  Pop 1 :: (if bool_decide (is_Some (to_number (rawget t (VString key) m)))
            then [Query] else [])
        ++ Query :: GetTable :: Push :: tr.

(** The ways an evaluation can fail: the registered object is gone (or is
    no table), its [orientation] is not callable, or the call raises. *)
Inductive evaluation_fails (self : ScriptedRotation) (L : lua_State) (tjd : float)
  : Prop :=
| object_vanished :
    is_table (registered_object self L) = false →
    evaluation_fails self L tjd
| bad_orientation :
    is_function (orientation_of self L) = false →
    evaluation_fails self L tjd
| call_raises e m' :
    call (orientation_of self L) [registered_object self L; VNumber tjd] (mem L)
      = (Raises e, m') →
    evaluation_fails self L tjd.


(** The module-loading block of [initialize] when it does not fail: the
    values it leaves on the stack, and the store.  With no module asked for
    nothing happens; with one, [require] is called on the module's name,
    passed as a C string, and its one result stays on the stack.  [None]
    when [require] is no function or raises. *)
Definition module_phase (moduleName : option string) (m : store)
  : option (list value * store) :=
  if module_requested moduleName then
    match get_global "require" m with
    | VFunction f =>
        match call_function f [VString (c_str (default "" moduleName))] m with
        | (Returns vs, m') => Some ([default VNil (vs !! 0%nat)], m')
        | (Raises _, _) => None
        end
    | _ => None
    end
  else Some ([], m).

(** The script calls the module-loading block makes. *)
Definition module_calls (moduleName : option string) (m : store)
  : list api_event :=
  if module_requested moduleName then
    match get_global "require" m with
    | VFunction f =>
        [PCall (VFunction f) [VString (c_str (default "" moduleName))]]
    | _ => []
    end
  else [].

(** A module was asked for and [require] returned normally. *)
Definition module_loads (moduleName : option string) (m : store) : bool :=
  module_requested moduleName
  && match module_phase moduleName m with Some _ => true | None => false end.

(** A run of consecutive evaluations: the quaternions returned, in order,
    with the object and the world after the last one. *)
Fixpoint spins (self : ScriptedRotation) (times : list float) (w : World)
  : list Quaterniond * ScriptedRotation * World :=
  match times with
  | [] => ([], self, w)
  | tjd :: times =>
      let r := spin self tjd w in
      let rs := spins r.1.2 times r.2 in
      (r.1.1 :: rs.1.1, rs.1.2, rs.2)
  end.

(** Two evaluations at the same time, nothing in between. *)
Definition spin_twice (self : ScriptedRotation) (tjd : float) (w : World)
  : (Quaterniond * ScriptedRotation * World) * (Quaterniond * ScriptedRotation * World) :=
  let r1 := spin self tjd w in
  (r1, spin r1.1.2 tjd r1.2).

End Vocabulary.

(** ** Sample scripts

    A small interpretation of script functions, standing for a loaded
    script file, on which the statements below are tried. *)

Definition new_object (r : tableref) (fields : list (string * value)) (m : store)
  : store :=
  Store (globals m) (<[r := list_to_map fields]> (tables m)).

Definition sample_call (f : funref) (args : list value) (m : store)
  : outcome * store :=
  match f with
  | 1%positive =>      (* require: the module loads and returns true *)
      (Returns [VBoolean true], m)
  | 2%positive =>      (* makeSpin: period 1, orientation the identity *)
      (Returns [VTable 100],
       new_object 100 [("period", VNumber 1); ("orientation", VFunction 3)] m)
  | 3%positive =>      (* orientation: the identity quaternion *)
      (Returns [VNumber 1; VNumber 0; VNumber 0; VNumber 0], m)
  | 4%positive =>      (* makeBackwards: endDate 10 before beginDate 20 *)
      (Returns [VTable 101],
       new_object 101 [("beginDate", VNumber 20); ("endDate", VNumber 10);
                       ("orientation", VFunction 3)] m)
  | 5%positive =>      (* makeOpenEnded: endDate = 0/0 *)
      (Returns [VTable 102],
       new_object 102 [("endDate", VNumber nan); ("orientation", VFunction 3)] m)
  | 6%positive =>      (* an orientation that fails *)
      (Raises (VString "boom"), m)
  | 7%positive =>      (* makeBroken: its orientation always fails *)
      (Returns [VTable 103], new_object 103 [("orientation", VFunction 6)] m)
  | 8%positive =>      (* makeMute: no orientation at all *)
      (Returns [VTable 104], new_object 104 [("period", VNumber 1)] m)
  | _ => (Raises (VString "no such function"), m)
  end.

(** No string of these scripts reads as a number. *)
Definition sample_runtime : Runtime := {|
  call_function := sample_call;
  str2number := λ _, None;
  number2str := λ _, "0"
|}.

Definition sample_globals : gmap string value :=
  list_to_map [("require", VFunction 1); ("makeSpin", VFunction 2);
               ("makeBackwards", VFunction 4); ("makeOpenEnded", VFunction 5);
               ("makeBroken", VFunction 7); ("makeMute", VFunction 8);
               ("version", VString "1.7")].

(** A process with scripting enabled, an empty stack and no model yet. *)
Definition sample_world : World :=
  MkWorld (State [] (Store sample_globals ∅) []) shared_state [] 1.

(** An object on which [initialize] has not run. *)
Definition sample_rotation : ScriptedRotation :=
  MkRotation nullptr "" 0 0 0 (-1) (Quat 1 0 0 0) true.

Definition sample_parameters : Hash := [("axis", StringValue "z")].

(** The model and the world [initialize] leaves for a factory name. *)
Definition built (factory : string) : bool * ScriptedRotation * World :=
  @initialize sample_runtime sample_rotation None factory
              (Some sample_parameters) "/addons/spin" sample_world.

Definition model_of (factory : string) : ScriptedRotation := (built factory).1.2.
Definition world_of (factory : string) : World := (built factory).2.

(** A model like the one [makeSpin] builds, with caching switched off and
    last evaluated at time 5. *)
Definition uncached_model : ScriptedRotation :=
  MkRotation shared_state "cel_script_object_1" 1 0 0 5 (Quat 1 0 0 0) false.

(** The same construction, asking first for the module [spinlib]. *)
Definition built_with_module (factory : string) : bool * ScriptedRotation * World :=
  @initialize sample_runtime sample_rotation (Some "spinlib") factory
              (Some sample_parameters) "/addons/spin" sample_world.

(** The table handed to the generator: a new one, holding the declared
    parameters and the add-on path, the latter as a C string. *)
Definition generator_table (m : store) : tableref := fresh (dom (tables m)).

Definition generator_store (ps : Hash) (path : string) (m : store) : store :=
  rawset (VTable (generator_table m)) (VString "AddonPath") (VString (c_str path))
    (store_parameters (VTable (generator_table m)) ps
       (Store (globals m) (<[generator_table m := ∅]> (tables m)))).

(** *** More sample scripts

    An orientation that returns nothing, a generator declaring only a
    [beginDate], a generator returning nothing, and a [require] that fails. *)

Definition sparse_call (f : funref) (args : list value) (m : store)
  : outcome * store :=
  match f with
  | 1%positive =>      (* returns no value at all *)
      (Returns [], m)
  | 2%positive =>      (* makeLate: valid from J2000 on, no endDate *)
      (Returns [VTable 50],
       new_object 50 [("beginDate", VNumber 2451545); ("orientation", VFunction 1)] m)
  | _ => (Raises (VString "module not found"), m)
  end.

Definition sparse_runtime : Runtime := {|
  call_function := sparse_call;
  str2number := λ _, None;
  number2str := λ _, "0"
|}.

Definition sparse_world : World :=
  MkWorld
    (State []
       (Store (list_to_map [("require", VFunction 3); ("makeLate", VFunction 2);
                            ("makeNothing", VFunction 1); ("makeFail", VFunction 3);
                            ("silent", VTable 7)])
              {[ 7%positive := {[ "orientation" := VFunction 1 ]} ]})
       [])
    shared_state [] 1.

(** A constructed model whose registered object is the table [silent]. *)
Definition silent_model : ScriptedRotation :=
  MkRotation shared_state "silent" 0 0 0 (-1) (Quat 1 0 0 0) true.

(** A process with scripting enabled and no global at all. *)
Definition bare_world : World :=
  MkWorld (State [] (Store ∅ ∅) []) shared_state [] 1.

(** ** Running the code on an explicit state *)

Section Stepping.
Context {rt : Runtime}.

(** Each API call on an explicit state. *)
Lemma run_getglobal name st m tr c lg ni :
  lua_getglobal shared_state name (MkWorld (State st m tr) c lg ni)
  = ((), MkWorld (State (get_global name m :: st) m (GetGlobal name :: tr)) c lg ni).
Proof. reflexivity. Qed.

Lemma run_setglobal name v st m tr c lg ni :
  lua_setglobal shared_state name (MkWorld (State (v :: st) m tr) c lg ni)
  = ((), MkWorld (State st (Store (store_entry name v (globals m)) (tables m))
                        (SetGlobal name :: tr)) c lg ni).
Proof. reflexivity. Qed.

Lemma run_pushstring s st m tr c lg ni :
  lua_pushstring shared_state s (MkWorld (State st m tr) c lg ni)
  = ((), MkWorld (State (VString s :: st) m (Push :: tr)) c lg ni).
Proof. reflexivity. Qed.

Lemma run_pushnumber n st m tr c lg ni :
  lua_pushnumber shared_state n (MkWorld (State st m tr) c lg ni)
  = ((), MkWorld (State (VNumber n :: st) m (Push :: tr)) c lg ni).
Proof. reflexivity. Qed.

Lemma run_pushboolean b st m tr c lg ni :
  lua_pushboolean shared_state b (MkWorld (State st m tr) c lg ni)
  = ((), MkWorld (State (VBoolean b :: st) m (Push :: tr)) c lg ni).
Proof. reflexivity. Qed.

Lemma run_pushvalue_1 a st m tr c lg ni :
  lua_pushvalue shared_state (-1) (MkWorld (State (a :: st) m tr) c lg ni)
  = ((), MkWorld (State (a :: a :: st) m (Push :: tr)) c lg ni).
Proof. reflexivity. Qed.

Lemma run_pushvalue_2 a b st m tr c lg ni :
  lua_pushvalue shared_state (-2) (MkWorld (State (a :: b :: st) m tr) c lg ni)
  = ((), MkWorld (State (b :: a :: b :: st) m (Push :: tr)) c lg ni).
Proof. reflexivity. Qed.

Lemma run_pop n st m tr c lg ni :
  lua_pop shared_state n (MkWorld (State st m tr) c lg ni)
  = ((), MkWorld (State (drop n st) m (Pop n :: tr)) c lg ni).
Proof. reflexivity. Qed.

Lemma run_newtable st m tr c lg ni :
  lua_newtable shared_state (MkWorld (State st m tr) c lg ni)
  = ((), MkWorld (State (VTable (fresh (dom (tables m))) :: st)
                        (Store (globals m) (<[fresh (dom (tables m)) := ∅]> (tables m)))
                        (NewTable :: tr)) c lg ni).
Proof. reflexivity. Qed.

Lemma run_gettable_2 k t st m tr c lg ni :
  lua_gettable shared_state (-2) (MkWorld (State (k :: t :: st) m tr) c lg ni)
  = ((), MkWorld (State (rawget t k m :: t :: st) m (GetTable :: tr)) c lg ni).
Proof. reflexivity. Qed.

Lemma run_settable_3 v k t st m tr c lg ni :
  lua_settable shared_state (-3) (MkWorld (State (v :: k :: t :: st) m tr) c lg ni)
  = ((), MkWorld (State (t :: st) (rawset t k v m) (SetTable :: tr)) c lg ni).
Proof. reflexivity. Qed.

Lemma run_istable a st m tr c lg ni :
  lua_istable shared_state (-1) (MkWorld (State (a :: st) m tr) c lg ni)
  = (is_table a, MkWorld (State (a :: st) m (Query :: tr)) c lg ni).
Proof. reflexivity. Qed.

Lemma run_isfunction a st m tr c lg ni :
  lua_isfunction shared_state (-1) (MkWorld (State (a :: st) m tr) c lg ni)
  = (is_function a, MkWorld (State (a :: st) m (Query :: tr)) c lg ni).
Proof. reflexivity. Qed.

Lemma run_isnumber a st m tr c lg ni :
  lua_isnumber shared_state (-1) (MkWorld (State (a :: st) m tr) c lg ni)
  = (bool_decide (is_Some (to_number a)),
     MkWorld (State (a :: st) m (Query :: tr)) c lg ni).
Proof. reflexivity. Qed.

Lemma run_tonumber_1 a st m tr c lg ni :
  lua_tonumber shared_state (-1) (MkWorld (State (a :: st) m tr) c lg ni)
  = (default 0%float (to_number a),
     MkWorld (State (a :: st) m (Query :: tr)) c lg ni).
Proof. reflexivity. Qed.

Lemma run_tonumber_2 a b st m tr c lg ni :
  lua_tonumber shared_state (-2) (MkWorld (State (a :: b :: st) m tr) c lg ni)
  = (default 0%float (to_number b),
     MkWorld (State (a :: b :: st) m (Query :: tr)) c lg ni).
Proof. reflexivity. Qed.

Lemma run_tonumber_3 a b d st m tr c lg ni :
  lua_tonumber shared_state (-3) (MkWorld (State (a :: b :: d :: st) m tr) c lg ni)
  = (default 0%float (to_number d),
     MkWorld (State (a :: b :: d :: st) m (Query :: tr)) c lg ni).
Proof. reflexivity. Qed.

Lemma run_tonumber_4 a b d e st m tr c lg ni :
  lua_tonumber shared_state (-4) (MkWorld (State (a :: b :: d :: e :: st) m tr) c lg ni)
  = (default 0%float (to_number e),
     MkWorld (State (a :: b :: d :: e :: st) m (Query :: tr)) c lg ni).
Proof. reflexivity. Qed.

Lemma run_tostring a st m tr c lg ni :
  lua_tostring shared_state (-1) (MkWorld (State (a :: st) m tr) c lg ni)
  = (text_of a, MkWorld (State (converted a :: st) m (Query :: tr)) c lg ni).
Proof. destruct a; reflexivity. Qed.

Lemma run_log lvl fmt args L c lg ni :
  GetLogger_log lvl fmt args (MkWorld L c lg ni)
  = ((), MkWorld L c (LogEntry lvl fmt args :: lg) ni).
Proof. reflexivity. Qed.

Lemma run_pcall_1 n a f st m tr c lg ni :
  lua_pcall shared_state 1 n (MkWorld (State (a :: f :: st) m tr) c lg ni)
  = match call f [a] m with
    | (Returns vs, m') =>
        (0, MkWorld (State (rev (adjust n vs) ++ st) m' (PCall f [a] :: tr)) c lg ni)
    | (Raises e, m') =>
        (LUA_ERRRUN, MkWorld (State (e :: st) m' (PCall f [a] :: tr)) c lg ni)
    end.
Proof.
  unfold lua_pcall, with_engine, pcall. cbn.
  destruct (call f [a] m) as [[vs|e] m']; reflexivity.
Qed.

Lemma run_pcall_2 n a b f st m tr c lg ni :
  lua_pcall shared_state 2 n (MkWorld (State (b :: a :: f :: st) m tr) c lg ni)
  = match call f [a; b] m with
    | (Returns vs, m') =>
        (0, MkWorld (State (rev (adjust n vs) ++ st) m' (PCall f [a; b] :: tr)) c lg ni)
    | (Raises e, m') =>
        (LUA_ERRRUN, MkWorld (State (e :: st) m' (PCall f [a; b] :: tr)) c lg ni)
    end.
Proof.
  unfold lua_pcall, with_engine, pcall. cbn.
  destruct (call f [a; b] m) as [[vs|e] m']; reflexivity.
Qed.

Lemma run_GetScriptedObjectContext L c lg ni :
  GetScriptedObjectContext (MkWorld L c lg ni) = (c, MkWorld L c lg ni).
Proof. reflexivity. Qed.

Lemma run_GenerateScriptObjectName L c lg ni :
  GenerateScriptObjectName (MkWorld L c lg ni)
  = ("cel_script_object_" +:+ pretty ni, MkWorld L c lg (N.succ ni)).
Proof. reflexivity. Qed.

Lemma adjust_1 vs : adjust 1 vs = [default VNil (vs !! 0%nat)].
Proof. destruct vs; reflexivity. Qed.

Lemma adjust_4 vs :
  rev (adjust 4 vs)
  = [default VNil (vs !! 3%nat); default VNil (vs !! 2%nat);
     default VNil (vs !! 1%nat); default VNil (vs !! 0%nat)].
Proof. destruct vs as [|a [|b [|d [|e vs]]]]; reflexivity. Qed.


End Stepping.

Create Rewrite HintDb lua_run.
#[local] Hint Rewrite @run_getglobal @run_setglobal @run_pushstring @run_pushnumber
  @run_pushboolean @run_pushvalue_1 @run_pushvalue_2 @run_pop @run_newtable
  @run_gettable_2 @run_settable_3 @run_istable @run_isfunction @run_isnumber
  @run_tonumber_1 @run_tonumber_2 @run_tonumber_3 @run_tonumber_4 @run_tostring
  @run_log @run_pcall_1 @run_pcall_2 @run_GetScriptedObjectContext
  @run_GenerateScriptObjectName : lua_run.

Ltac run_cbn := cbn [drop fst snd LUA_ERRRUN Z.eqb negb is_table is_function rawget call].
Ltac run_step := progress (autorewrite with lua_run; run_cbn).
Ltac run := cbv delta [bind ret]; run_cbn; repeat run_step.

Ltac case_call vs e m H :=
  match goal with
  | |- context [call_function ?f ?a ?s] =>
      destruct (call_function f a s) as [[vs|e] m] eqn:H
  end.

Lemma bound_names_cons e tr :
  bound_names (e :: tr)
  = match e with
    | SetGlobal name => name :: bound_names tr
    | _ => bound_names tr
    end.
Proof. by destruct e. Qed.

Section InitSteps.
Context {rt : Runtime}.

Lemma run_SetLuaVariables ps : ∀ t st m tr c lg ni,
  SetLuaVariables shared_state ps (MkWorld (State (t :: st) m tr) c lg ni)
  = ((), MkWorld (State (t :: st) (store_parameters t ps m)
                        (parameters_trace ps tr)) c lg ni).
Proof.
  induction ps as [|[key v] ps IH]; intros; [reflexivity|].
  cbn [SetLuaVariables]. destruct v; run; rewrite IH; reflexivity.
Qed.

Lemma run_SafeGetLuaNumber t key dflt st m tr c lg ni :
  SafeGetLuaNumber shared_state (-1) key dflt (MkWorld (State (t :: st) m tr) c lg ni)
  = (number_field t key dflt m,
     MkWorld (State (t :: st) m (field_trace t key m tr)) c lg ni).
Proof.
  unfold SafeGetLuaNumber, number_field, field_trace.
  change (-1 - 1) with (-2). run.
  destruct (to_number (rawget t (VString key) m)) as [n|] eqn:E.
  - rewrite bool_decide_true by eauto. run. rewrite E. reflexivity.
  - rewrite bool_decide_false by (by intros [? ?]). run. reflexivity.
Qed.

End InitSteps.

#[local] Hint Rewrite @run_SetLuaVariables @run_SafeGetLuaNumber : lua_run.


(** *** The five ways through [spin] *)

Section SpinPaths.
Context {rt : Runtime}.
Variables (self : ScriptedRotation) (tjd : float).
Variables (st : list value) (m : store) (tr : list api_event).
Variables (c : lua_State_ptr) (lg : list log_entry) (ni : N).
Let w := MkWorld (State st m tr) c lg ni.
Let name := c_str (luaRotationObjectName self).

Lemma spin_cached w0 :
  cache_miss self tjd = false →
  spin self tjd w0 = ((lastOrientation self, self), w0).
Proof. unfold spin, cache_miss. intros ->. reflexivity. Qed.

Lemma spin_vanished :
  luaState self = shared_state →
  cache_miss self tjd = true →
  is_table (get_global name m) = false →
  spin self tjd w
  = ((lastOrientation self, self),
     after_calls [Pop 1; Query; GetGlobal name] st m w).
Proof.
  unfold spin, cache_miss. intros -> -> Hv. subst w name. run.
  rewrite Hv. run. reflexivity.
Qed.

Lemma spin_bad_orientation t :
  luaState self = shared_state →
  cache_miss self tjd = true →
  get_global name m = VTable t →
  is_function (get_field t "orientation" m) = false →
  spin self tjd w
  = ((lastOrientation self, self),
     after_calls [Pop 1; Pop 1; Query; GetTable; Push; Query; GetGlobal name] st m w).
Proof.
  unfold spin, cache_miss. intros -> -> Ho Hf. subst w name. run.
  rewrite Ho. run. rewrite Hf. run. reflexivity.
Qed.

Lemma spin_raises t f e m' :
  luaState self = shared_state →
  cache_miss self tjd = true →
  get_global name m = VTable t →
  get_field t "orientation" m = VFunction f →
  call_function f [VTable t; VNumber tjd] m = (Raises e, m') →
  spin self tjd w
  = ((lastOrientation self, self),
     add_log (LogEntry Warning ("ScriptedRotation failed: {}" +:+ nl) [text_of e])
       (after_calls [Pop 1; Pop 1; Query; PCall (VFunction f) [VTable t; VNumber tjd];
                     Push; Push; Query; GetTable; Push; Query; GetGlobal name]
          st m' w)).
Proof.
  unfold spin, cache_miss. intros -> -> Ho Hf Hc. subst w name. run.
  rewrite Ho. run. rewrite Hf. run. rewrite Hc. run. reflexivity.
Qed.

Lemma spin_fresh t f vs m' :
  luaState self = shared_state →
  cache_miss self tjd = true →
  get_global name m = VTable t →
  get_field t "orientation" m = VFunction f →
  call_function f [VTable t; VNumber tjd] m = (Returns vs, m') →
  let q := Quat (result_number vs 0) (result_number vs 1)
                (result_number vs 2) (result_number vs 3) in
  spin self tjd w
  = ((q, set_lastTime tjd (set_lastOrientation q self)),
     after_calls [Pop 1; Pop 4; Query; Query; Query; Query;
                  PCall (VFunction f) [VTable t; VNumber tjd];
                  Push; Push; Query; GetTable; Push; Query; GetGlobal name]
       st m' w).
Proof.
  unfold spin, cache_miss. intros -> -> Ho Hf Hc. subst w name. run.
  rewrite Ho. run. rewrite Hf. run. rewrite Hc, adjust_4. run. reflexivity.
Qed.

End SpinPaths.

(** *** The ways through [initialize] *)

Lemma pcalls_cons e tr :
  filter is_pcall (e :: tr)
  = if is_pcall e then e :: filter is_pcall tr else filter is_pcall tr.
Proof. by destruct e. Qed.

Lemma pcalls_parameters_trace ps : ∀ tr,
  filter is_pcall (parameters_trace ps tr) = filter is_pcall tr.
Proof.
  induction ps as [|kv ps IH]; intros tr; [reflexivity|].
  change (parameters_trace (kv :: ps) tr)
    with (parameters_trace ps (SetTable :: Push :: Push :: tr)).
  by rewrite IH.
Qed.

Section TraceFacts.
Context {rt : Runtime}.

Lemma bound_names_parameters_trace ps : ∀ tr,
  bound_names (parameters_trace ps tr) = bound_names tr.
Proof.
  induction ps as [|kv ps IH]; intros tr; [reflexivity|].
  change (parameters_trace (kv :: ps) tr)
    with (parameters_trace ps (SetTable :: Push :: Push :: tr)).
  by rewrite IH.
Qed.

Lemma bound_names_field_trace t key m tr :
  bound_names (field_trace t key m tr) = bound_names tr.
Proof. unfold field_trace. by destruct (bool_decide _). Qed.

Lemma pcalls_field_trace t key m tr :
  filter is_pcall (field_trace t key m tr) = filter is_pcall tr.
Proof. unfold field_trace. by destruct (bool_decide _). Qed.

Lemma get_global_registered name t g tb :
  get_global name (Store (store_entry name (VTable t) g) tb) = VTable t.
Proof. unfold get_global. cbn. by rewrite lookup_insert_eq. Qed.

(** A digit is no NUL, so the generated names pass through [c_str] whole. *)
Lemma c_str_pretty_N_go x : ∀ s,
  c_str s = s → c_str (pretty_N_go x s) = pretty_N_go x s.
Proof.
  induction (N.lt_wf_0 x) as [x _ IH]. intros s Hs.
  destruct (decide (x = 0%N)) as [->|Hx]; [by rewrite pretty_N_go_0|].
  rewrite pretty_N_go_step by lia.
  apply IH; [apply N.div_lt; lia|].
  assert (∀ d, c_str (String (pretty_N_char d) s) = String (pretty_N_char d) s)
    as Hd; [|apply Hd].
  intros d. unfold pretty_N_char. repeat case_match; cbn; by rewrite Hs.
Qed.

Lemma c_str_app s1 s2 :
  c_str s1 = s1 → c_str s2 = s2 → c_str (s1 +:+ s2) = s1 +:+ s2.
Proof.
  intros H1 H2. induction s1 as [|a s1 IH]; [exact H2|].
  change (String a s1 +:+ s2) with (String a (s1 +:+ s2)).
  cbn [c_str] in *. destruct (Ascii.eqb a Ascii.zero); [discriminate|].
  injection H1 as H1. f_equal. by apply IH.
Qed.

Lemma c_str_generated (ni : N) :
  c_str ("cel_script_object_" +:+ pretty ni) = "cel_script_object_" +:+ pretty ni.
Proof.
  apply c_str_app; [reflexivity|]. unfold pretty, pretty_N.
  case_decide; [reflexivity|]. by apply c_str_pretty_N_go.
Qed.

End TraceFacts.

(** Gathers what the goal says of the result of [initialize] into one
    predicate, so that the call is stepped through once. *)
Ltac focus_initialize :=
  match goal with
  | |- context [initialize ?s ?mn ?fn ?p ?path ?w] =>
      let T := constr:(initialize s mn fn p path w) in
      match goal with
      | |- ?G =>
          let P := eval pattern T in G in
          match P with
          | ?Q _ => set (post := Q); change (post T)
          end
      end
  end.

(** Steps [initialize] through its module-loading block, for each of the two
    ways [module_phase] has of succeeding. *)
Ltac module_cases Hphase :=
  unfold module_phase, module_calls in *;
  let Hmod := fresh "Hmod" in
  let Hreq := fresh "Hreq" in
  let Hload := fresh "Hload" in
  match type of Hphase with
  | (if module_requested ?mn then _ else _) = _ =>
      destruct (module_requested mn) eqn:Hmod;
      [ match type of Hphase with
        | match get_global ?n ?s with _ => _ end = _ =>
            destruct (get_global n s) as [| | | | |?f|] eqn:Hreq;
            try discriminate Hphase
        end;
        match type of Hphase with
        | match call_function ?f ?a ?s with _ => _ end = _ =>
            destruct (call_function f a s) as [[?vs|?e] ?m] eqn:Hload;
            try discriminate Hphase
        end
      | ];
      injection Hphase as <- <-;
      focus_initialize; unfold initialize; rewrite Hmod; run;
      [ rewrite Hreq; run; rewrite Hload; run; rewrite adjust_1; cbn [rev app]
      | ]
  end.

(** Closes a goal on the final state of [initialize]. *)
Ltac leaf :=
  try (match goal with P := _ |- _ => subst P end; cbv beta);
  cbn [fst snd engine stack mem trace logger nameIndex scriptedObjectContext
       app];
  rewrite ?pcalls_cons; cbn [is_pcall];
  rewrite ?pcalls_field_trace, ?pcalls_cons; cbn [is_pcall];
  rewrite ?pcalls_parameters_trace, ?pcalls_cons; cbn [is_pcall];
  rewrite ?bound_names_cons; cbv beta iota;
  rewrite ?bound_names_field_trace, ?bound_names_cons; cbv beta iota;
  rewrite ?bound_names_parameters_trace, ?bound_names_cons; cbv beta iota;
  repeat split.

Section InitPaths.
Context {rt : Runtime}.

Variables (self : ScriptedRotation) (modname : option string) (fn : string).
Variables (ps : Hash) (path : string).
Variables (st : list value) (m : store) (tr : list api_event).
Variables (lg : list log_entry) (ni : N).

Let R := initialize self modname fn (Some ps) path
           (MkWorld (State st m tr) shared_state lg ni).

(** A module is asked for and [require] is no function. *)
Lemma initialize_no_require :
  module_requested modname = true →
  is_function (get_global "require" m) = false →
  leaves R false (set_luaState shared_state self) st m
    (filter is_pcall tr) (bound_names tr)
    (LogEntry Error
       ("Cannot load ScriptedRotation package: 'require' function is unavailable"
          +:+ nl) [] :: lg) ni.
Proof.
  intros Hmod Hreq. subst R. unfold leaves. focus_initialize.
  unfold initialize. rewrite Hmod. run.
  destruct (get_global "require" m); try discriminate Hreq; run; by repeat split.
Qed.

(** A module is asked for and [require] raises. *)
Lemma initialize_require_raises f e m1 :
  module_requested modname = true →
  get_global "require" m = VFunction f →
  call_function f [VString (c_str (default "" modname))] m = (Raises e, m1) →
  leaves R false (set_luaState shared_state self) st m1
    (PCall (VFunction f) [VString (c_str (default "" modname))]
       :: filter is_pcall tr)
    (bound_names tr)
    (LogEntry Error ("Failed to load module for ScriptedRotation: {}" +:+ nl)
       [text_of e] :: lg) ni.
Proof.
  intros Hmod Hreq Hload. subst R. unfold leaves. focus_initialize.
  unfold initialize. rewrite Hmod. run.
  rewrite Hreq. run. rewrite Hload. run. by repeat split.
Qed.

(** The generator's name is bound to no function. *)
Lemma initialize_missing res m0 :
  module_phase modname m = Some (res, m0) →
  is_function (get_global (c_str fn) m0) = false →
  leaves R false (set_luaState shared_state self) (res ++ st) m0
    (module_calls modname m ++ filter is_pcall tr) (bound_names tr)
    (LogEntry Error ("No Lua function named {} found." +:+ nl) [Some fn] :: lg) ni.
Proof.
  intros Hphase Hfn. subst R. unfold leaves. module_cases Hphase.
  all: destruct (get_global (c_str fn) _); try discriminate Hfn; run;
    by repeat split.
Qed.

(** The generator raises. *)
Lemma initialize_raises res m0 f e m2 :
  module_phase modname m = Some (res, m0) →
  get_global (c_str fn) m0 = VFunction f →
  call_function f [VTable (generator_table m0)] (generator_store ps path m0)
    = (Raises e, m2) →
  leaves R false (set_luaState shared_state self) (res ++ st) m2
    (PCall (VFunction f) [VTable (generator_table m0)]
       :: module_calls modname m ++ filter is_pcall tr)
    (bound_names tr)
    (LogEntry Error
       ("Error calling ScriptedRotation generator function: {}" +:+ nl)
       [text_of e] :: lg) ni.
Proof.
  intros Hphase Hfn Hcall. subst R. unfold leaves, generator_store, generator_table in *.
  module_cases Hphase.
  all: rewrite Hfn; run; rewrite Hcall; run; leaf.
Qed.

(** The generator returns, but no table. *)
Lemma initialize_bad_value res m0 f vs m2 :
  module_phase modname m = Some (res, m0) →
  get_global (c_str fn) m0 = VFunction f →
  call_function f [VTable (generator_table m0)] (generator_store ps path m0)
    = (Returns vs, m2) →
  is_table (default VNil (vs !! 0%nat)) = false →
  leaves R false (set_luaState shared_state self) (res ++ st) m2
    (PCall (VFunction f) [VTable (generator_table m0)]
       :: module_calls modname m ++ filter is_pcall tr)
    (bound_names tr)
    (LogEntry Error
       ("ScriptedRotation generator function returned bad value." +:+ nl) []
       :: lg) ni.
Proof.
  intros Hphase Hfn Hcall Hbad. subst R.
  unfold leaves, generator_store, generator_table in *.
  module_cases Hphase.
  all: rewrite Hfn; run; rewrite Hcall; run; rewrite adjust_1; cbn [rev app]; run;
    destruct (default VNil (vs !! 0%nat)); try discriminate Hbad; run; leaf.
Qed.

(** The generator returns a table: the object is registered, its optional
    fields are read and the range is checked. *)
Lemma initialize_registers res m0 f vs m2 t :
  module_phase modname m = Some (res, m0) →
  get_global (c_str fn) m0 = VFunction f →
  call_function f [VTable (generator_table m0)] (generator_store ps path m0)
    = (Returns vs, m2) →
  vs !! 0%nat = Some (VTable t) →
  let name := "cel_script_object_" +:+ pretty ni in
  let p := number_field (VTable t) "period" 0 m2 in
  let b := number_field (VTable t) "beginDate" 0 m2 in
  let e := number_field (VTable t) "endDate" 0 m2 in
  leaves R (negb (e <? b)%float)
    (set_validRangeEnd e
       (set_validRangeBegin b
          (set_period p
             (set_luaRotationObjectName name (set_luaState shared_state self)))))
    (res ++ st)
    (Store (<[name := VTable t]> (globals m2)) (tables m2))
    (PCall (VFunction f) [VTable (generator_table m0)]
       :: module_calls modname m ++ filter is_pcall tr)
    (name :: bound_names tr)
    ((if (e <? b)%float
      then [LogEntry Error
              ("Bad script rotation: valid range end < begin" +:+ nl) []]
      else []) ++ lg)
    (N.succ ni).
Proof.
  intros Hphase Hfn Hcall Hvs. cbv zeta. subst R.
  unfold leaves, generator_store, generator_table in *.
  module_cases Hphase.
  all: rewrite Hfn; run; rewrite Hcall; run;
    rewrite adjust_1, Hvs; change (default VNil (Some (VTable t))) with (VTable t);
    cbn [rev app]; run; rewrite c_str_generated;
    cbn [validRangeEnd validRangeBegin set_validRangeEnd set_validRangeBegin];
    subst post; cbv beta; unfold number_field, rawget, get_field; cbn [tables];
    destruct (_ <? _)%float; run; leaf.
Qed.

End InitPaths.
(** The end-to-end construction with [makeSpin]. *)
Example built_makeSpin :
  (built "makeSpin").1.1 = true
  ∧ luaRotationObjectName (built "makeSpin").1.2 = "cel_script_object_1"
  ∧ registered_object (built "makeSpin").1.2 (engine (built "makeSpin").2) = VTable 100
  ∧ stack (engine (built "makeSpin").2) = [].
Proof. vm_compute. auto. Qed.

(** *** Comparisons of doubles *)



(** *** Consequences for [spin] *)

Section SpinFacts.
Context {rt : Runtime}.

Lemma script_calls_after evs st m w :
  script_calls (engine (after_calls evs st m w))
  = (length (filter is_pcall evs) + script_calls (engine w))%nat.
Proof.
  unfold script_calls, after_calls. cbn. by rewrite filter_app, length_app.
Qed.

(** Every way through [spin] restores the stack; past the cache test it
    looks the object up, and calls [orientation] when there is one. *)
Lemma spin_effects self tjd w :
  luaState self = shared_state →
  stack (engine (spin self tjd w).2) = stack (engine w)
  ∧ (cache_miss self tjd = true →
     ∃ evs,
       trace (engine (spin self tjd w).2)
       = (evs ++ GetGlobal (c_str (luaRotationObjectName self)) :: trace (engine w))%list
       ∧ ∀ t f,
           registered_object self (engine w) = VTable t →
           get_field t "orientation" (mem (engine w)) = VFunction f →
           PCall (VFunction f) [VTable t; VNumber tjd] ∈ evs).
Proof.
  intros Hp.
  destruct (cache_miss self tjd) eqn:Hmiss;
    [|rewrite spin_cached by done; split; [done|discriminate]].
  destruct w as [[st m tr] c lg ni]. unfold registered_object. cbn [engine mem stack trace].
  destruct (get_global (c_str (luaRotationObjectName self)) m) as [| | | |t| |] eqn:Hobj;
    try (erewrite spin_vanished by (done || by rewrite Hobj)).
  5: destruct (get_field t "orientation" m) as [| | | | |f|] eqn:Hfield;
    try (erewrite spin_bad_orientation by (done || by rewrite Hfield)).
  10: destruct (call_function f [VTable t; VNumber tjd] m) as [[vs|e] m'] eqn:Hcall;
    [erewrite spin_fresh by done|erewrite spin_raises by done].
  all: split; [reflexivity|intros _].
  all: cbn [after_calls add_log set_engine engine trace fst snd].
  all: match goal with
       | |- ∃ evs, (?pre ++ _)%list = _ ∧ _ =>
           let n := eval cbv in (Nat.pred (length pre)) in
           exists (take n pre); split; [reflexivity|]
       end.
  all: intros ? ? Ht Hf; try discriminate Ht; injection Ht as ?; subst.
  all: rewrite Hfield in Hf; try discriminate Hf; injection Hf as ?; subst.
  all: cbn; set_solver.
Qed.

End SpinFacts.

(** ** The evaluation contract *)

Section SpinTheorems.
Context {rt : Runtime}.

(** C1: on a constructed model, when the registered object is missing from
    the globals (or is no table), or its [orientation] field is absent or
    not callable, or the orientation call raises, [spin] returns the
    previous cached quaternion and leaves the object, hence [lastOrientation]
    and [lastTime], as it was.  [spin] is a total function: no error escapes. *)
Theorem spin_soft_failure self w tjd :
  luaState self = shared_state →
  evaluation_fails self (engine w) tjd →
  (spin self tjd w).1 = (lastOrientation self, self).
Proof.
  intros Hp Hfail.
  destruct (cache_miss self tjd) eqn:Hmiss; [|by rewrite spin_cached].
  destruct w as [[st m tr] c lg ni].
  destruct (get_global (c_str (luaRotationObjectName self)) m) as [| | | |t| |] eqn:Hobj;
    try (by erewrite spin_vanished; [| | |rewrite Hobj]).
  destruct (get_field t "orientation" m) as [| | | | |f|] eqn:Hfield;
    try (by erewrite spin_bad_orientation; [| | | |rewrite Hfield]).
  destruct Hfail as [Hv|Hb|e m' Hcall];
    unfold orientation_of, registered_object in *; cbn [engine mem] in *;
    rewrite Hobj in *; cbn [rawget] in *; rewrite ?Hfield in *.
  - discriminate.
  - discriminate.
  - by erewrite spin_raises.
Qed.

(** C2 (amended): with [cacheable] true, a call at a time equal to [lastTime]
    returns [lastOrientation] and leaves the engine untouched; and when a
    call at a time [tjd] that is not NaN misses the cache and its orientation
    call succeeds, a second call right after it returns the identical result
    from the cache, so that the two calls make exactly one script call. *)
Theorem spin_cache_reuse self tjd w :
  cacheable self = true →
  ((tjd =? lastTime self)%float = true →
   spin self tjd w = ((lastOrientation self, self), w))
  ∧ (∀ t f vs m',
       luaState self = shared_state →
       (tjd =? lastTime self)%float = false →
       (tjd =? tjd)%float = true →
       registered_object self (engine w) = VTable t →
       get_field t "orientation" (mem (engine w)) = VFunction f →
       call_function f [VTable t; VNumber tjd] (mem (engine w)) = (Returns vs, m') →
       (spin_twice self tjd w).2 = (spin_twice self tjd w).1
       ∧ script_calls (engine (spin_twice self tjd w).2.2)
         = S (script_calls (engine w))).
Proof.
  intros Hc. split.
  - intros Heq. apply spin_cached. unfold cache_miss. by rewrite Heq, Hc.
  - intros t f vs m' Hp Hne Hrefl Hobj Hfield Hcall.
    destruct w as [[st m tr] c lg ni]. unfold spin_twice. cbv zeta.
    erewrite spin_fresh by (done || (unfold cache_miss; by rewrite Hne)).
    cbn [fst snd]. rewrite spin_cached.
    + split; [reflexivity|]. cbn [snd]. by rewrite script_calls_after.
    + unfold cache_miss. cbn. by rewrite Hrefl, Hc.
Qed.

(** C5: when [spin] looks the object up and finds a table whose
    [orientation] is a function, it calls that function with the table
    itself and the time; if the call returns four numbers they are taken as
    [(w, x, y, z)], the quaternion is stored in [lastOrientation], [lastTime]
    becomes the evaluated time, and the quaternion is returned. *)
Theorem spin_calls_orientation self tjd w t f qw qx qy qz m' :
  luaState self = shared_state →
  cache_miss self tjd = true →
  registered_object self (engine w) = VTable t →
  get_field t "orientation" (mem (engine w)) = VFunction f →
  call_function f [VTable t; VNumber tjd] (mem (engine w))
    = (Returns [VNumber qw; VNumber qx; VNumber qy; VNumber qz], m') →
  (spin self tjd w).1
    = (Quat qw qx qy qz,
       set_lastTime tjd (set_lastOrientation (Quat qw qx qy qz) self))
  ∧ lastOrientation (spin self tjd w).1.2 = Quat qw qx qy qz
  ∧ lastTime (spin self tjd w).1.2 = tjd
  ∧ filter is_pcall (trace (engine (spin self tjd w).2))
    = PCall (VFunction f) [VTable t; VNumber tjd]
        :: filter is_pcall (trace (engine w)).
Proof.
  intros Hp Hmiss Hobj Hfield Hcall. destruct w as [[st m tr] c lg ni].
  erewrite spin_fresh by done. repeat split.
Qed.

(** C8 (amended): of the evaluation-time failures only a runtime error in
    the orientation call is reported, as a warning carrying the error text;
    a vanished object and a missing or non-callable [orientation] field log
    nothing. *)
Theorem spin_failure_logging self tjd w :
  luaState self = shared_state →
  cache_miss self tjd = true →
  (∀ t f e m',
     registered_object self (engine w) = VTable t →
     get_field t "orientation" (mem (engine w)) = VFunction f →
     call_function f [VTable t; VNumber tjd] (mem (engine w)) = (Raises e, m') →
     logger (spin self tjd w).2
     = LogEntry Warning ("ScriptedRotation failed: {}" +:+ nl) [text_of e]
         :: logger w)
  ∧ (is_table (registered_object self (engine w)) = false →
     logger (spin self tjd w).2 = logger w)
  ∧ (∀ t,
       registered_object self (engine w) = VTable t →
       is_function (get_field t "orientation" (mem (engine w))) = false →
       logger (spin self tjd w).2 = logger w).
Proof.
  intros Hp Hmiss. destruct w as [[st m tr] c lg ni]. repeat split.
  - intros t f e m' Hobj Hfield Hcall. by erewrite spin_raises.
  - intros Hv. by erewrite spin_vanished.
  - intros t Hobj Hfield. by erewrite spin_bad_orientation.
Qed.

(** C9: with [cacheable] false every call looks the object up in the engine
    and, when the object and its method are there, calls [orientation], also
    at a time equal to [lastTime]; the engine is left untouched exactly when
    the time equals [lastTime] and [cacheable] is true. *)
Theorem spin_uncached self tjd w :
  luaState self = shared_state →
  (cacheable self = false →
   ∃ evs,
     trace (engine (spin self tjd w).2)
     = (evs ++ GetGlobal (c_str (luaRotationObjectName self)) :: trace (engine w))%list
     ∧ ∀ t f,
         registered_object self (engine w) = VTable t →
         get_field t "orientation" (mem (engine w)) = VFunction f →
         PCall (VFunction f) [VTable t; VNumber tjd] ∈ evs)
  ∧ (trace (engine (spin self tjd w).2) = trace (engine w)
     ↔ (tjd =? lastTime self)%float = true ∧ cacheable self = true).
Proof.
  intros Hp. destruct (spin_effects self tjd w Hp) as [_ Hlook]. split.
  - intros Hc. apply Hlook. unfold cache_miss. rewrite Hc. apply orb_true_r.
  - split.
    + intros Hsame. destruct (cache_miss self tjd) eqn:Hmiss.
      * destruct (Hlook eq_refl) as (evs & Htr & _). rewrite Htr in Hsame.
        apply (f_equal length) in Hsame. rewrite length_app in Hsame.
        cbn in Hsame. lia.
      * unfold cache_miss in Hmiss. apply orb_false_elim in Hmiss as [H1 H2].
        split; [by apply negb_false_iff in H1|by apply negb_false_iff in H2].
    + intros [Heq Hc]. rewrite spin_cached; [done|].
      unfold cache_miss. by rewrite Heq, Hc.
Qed.

End SpinTheorems.
(** *** Consequences for [initialize] *)

(** Every way through [initialize] once it has its parameters and the
    engine, each with what it leaves (as [Hend]). *)
Ltac initialize_paths self modname fn ps path st m tr lg ni :=
  let Hphase := fresh "Hphase" in let Hisf := fresh "Hisf" in
  let Hfn := fresh "Hfn" in let Hcall := fresh "Hcall" in
  let Hist := fresh "Hist" in let Hvs := fresh "Hvs" in
  let Hmod := fresh "Hmod" in let Hreq := fresh "Hreq" in
  let Hload := fresh "Hload" in let Hend := fresh "Hend" in
  let res := fresh "res" in let m0 := fresh "m0" in let f := fresh "f" in
  let vs := fresh "vs" in let e := fresh "e" in let m2 := fresh "m2" in
  let t := fresh "t" in let m1 := fresh "m1" in
  destruct (module_phase modname m) as [[res m0]|] eqn:Hphase;
  [ destruct (is_function (get_global (c_str fn) m0)) eqn:Hisf;
    [ destruct (get_global (c_str fn) m0) as [| | | | |f|] eqn:Hfn;
      try discriminate Hisf; clear Hisf;
      destruct (call_function f [VTable (generator_table m0)]
                  (generator_store ps path m0)) as [[vs|e] m2] eqn:Hcall;
      [ destruct (is_table (default VNil (vs !! 0%nat))) eqn:Hist;
        [ destruct (vs !! 0%nat) as [[| | | |t| |]|] eqn:Hvs;
          try discriminate Hist; clear Hist;
          pose proof (initialize_registers self modname fn ps path st m tr lg ni
                        res m0 f vs m2 t Hphase Hfn Hcall Hvs) as Hend
        | pose proof (initialize_bad_value self modname fn ps path st m tr lg ni
                        res m0 f vs m2 Hphase Hfn Hcall Hist) as Hend ]
      | pose proof (initialize_raises self modname fn ps path st m tr lg ni
                      res m0 f e m2 Hphase Hfn Hcall) as Hend ]
    | pose proof (initialize_missing self modname fn ps path st m tr lg ni
                    res m0 Hphase Hisf) as Hend ]
  | pose proof Hphase as Hmod; unfold module_phase in Hmod;
    destruct (module_requested modname) eqn:Hreq; [clear Hmod|discriminate Hmod];
    destruct (is_function (get_global "require" m)) eqn:Hisf;
    [ destruct (get_global "require" m) as [| | | | |f|] eqn:Hfn;
      try discriminate Hisf; clear Hisf;
      destruct (call_function f [VString (c_str (default "" modname))] m)
        as [[vs|e] m1] eqn:Hload;
      [ exfalso; unfold module_phase in Hphase;
        rewrite Hreq, Hfn, Hload in Hphase; discriminate Hphase
      | pose proof (initialize_require_raises self modname fn ps path st m tr lg ni
                      f e m1 Hreq Hfn Hload) as Hend ]
    | pose proof (initialize_no_require self modname fn ps path st m tr lg ni
                    Hreq Hisf) as Hend ] ];
  cbv zeta in Hend; unfold leaves in Hend;
  destruct Hend as (HR & Hst & Hmem & Hcalls & Hnames & Hlog & Hni & Hctx).

Section InitFacts.
Context {rt : Runtime}.

(** The object [initialize] registers, seen from the model it leaves. *)
Lemma registered_generated self (ni : N) t g tb :
  luaRotationObjectName self = "cel_script_object_" +:+ pretty ni →
  registered_object self
    (State [] (Store (<["cel_script_object_" +:+ pretty ni := VTable t]> g) tb) [])
  = VTable t.
Proof.
  intros Hname. unfold registered_object, get_global. cbn [mem globals].
  by rewrite Hname, c_str_generated, lookup_insert_eq.
Qed.

(** A successful [initialize] leaves a constructed model: its engine
    pointer set, its cache as before, the factory's table registered under
    the generated name, and the three optional fields read from it. *)
Lemma initialize_true self modname fn params path w :
  (initialize self modname fn params path w).1.1 = true →
  let self' := (initialize self modname fn params path w).1.2 in
  let L' := engine (initialize self modname fn params path w).2 in
  (luaState self' = shared_state
   ∧ lastTime self' = lastTime self
   ∧ lastOrientation self' = lastOrientation self
   ∧ cacheable self' = cacheable self)
  ∧ ∃ t, registered_object self' L' = VTable t
         ∧ period self' = number_field (VTable t) "period" 0 (mem L')
         ∧ validRangeBegin self' = number_field (VTable t) "beginDate" 0 (mem L')
         ∧ validRangeEnd self' = number_field (VTable t) "endDate" 0 (mem L')
         ∧ (validRangeEnd self' <? validRangeBegin self')%float = false.
Proof.
  destruct params as [ps|]; [|discriminate].
  destruct w as [[st m tr] [|] lg ni]; [discriminate|].
  intros Hok. cbv zeta.
  initialize_paths self modname fn ps path st m tr lg ni;
    rewrite HR in Hok |- *; try discriminate Hok.
  cbn [fst snd] in *. split; [done|]. exists t.
  unfold registered_object, number_field, rawget, get_field. rewrite Hmem.
  cbn [luaRotationObjectName set_validRangeEnd set_validRangeBegin set_period
       set_luaRotationObjectName mem tables period validRangeBegin validRangeEnd].
  rewrite c_str_generated. unfold get_global. cbn [globals].
  rewrite lookup_insert_eq. repeat split.
  by apply negb_true_iff.
Qed.

(** Unless a module was loaded, [initialize] returns with the stack as it
    found it. *)
Lemma initialize_stack self modname fn params path w :
  params = None ∨ scriptedObjectContext w = nullptr
  ∨ module_loads modname (mem (engine w)) = false →
  stack (engine (initialize self modname fn params path w).2) = stack (engine w).
Proof.
  destruct params as [ps|]; [|reflexivity].
  destruct w as [[st m tr] [|] lg ni]; [reflexivity|].
  intros [|[|Hnot]]; [discriminate..|]. cbn [engine mem stack] in Hnot |- *.
  unfold module_loads in Hnot.
  initialize_paths self modname fn ps path st m tr lg ni; rewrite Hst; try reflexivity.
  all: rewrite andb_true_r in Hnot; unfold module_phase in Hphase;
    rewrite Hnot in Hphase; by injection Hphase as <- <-.
Qed.

(** A failed [initialize] bound no global, unless it failed on the range
    check, which runs after the object was registered. *)
Lemma initialize_false self modname fn params path w :
  (initialize self modname fn params path w).1.1 = false →
  let self' := (initialize self modname fn params path w).1.2 in
  let L' := engine (initialize self modname fn params path w).2 in
  bound_names (trace L') = bound_names (trace (engine w))
  ∨ ∃ t, registered_object self' L' = VTable t
         ∧ bound_names (trace L')
           = luaRotationObjectName self' :: bound_names (trace (engine w))
         ∧ (validRangeEnd self' <? validRangeBegin self')%float = true.
Proof.
  destruct params as [ps|]; [|by left].
  destruct w as [[st m tr] [|] lg ni]; [by left|].
  intros Hok. cbv zeta.
  initialize_paths self modname fn ps path st m tr lg ni;
    rewrite HR in Hok |- *; cbn [engine trace]; rewrite Hnames; try by left.
  right. exists t. cbn [fst snd] in *.
  unfold registered_object. rewrite Hmem.
  cbn [luaRotationObjectName set_validRangeEnd set_validRangeBegin set_period
       set_luaRotationObjectName mem validRangeBegin validRangeEnd].
  rewrite c_str_generated. unfold get_global. cbn [globals].
  rewrite lookup_insert_eq. repeat split.
  by apply negb_false_iff.
Qed.

(** An evaluation that finds no callable [orientation] returns the cached
    quaternion and changes neither the object nor what scripts can see. *)
Lemma spin_without_orientation self tjd w :
  luaState self = shared_state →
  is_function (orientation_of self (engine w)) = false →
  (spin self tjd w).1 = (lastOrientation self, self)
  ∧ mem (engine (spin self tjd w).2) = mem (engine w)
  ∧ script_calls (engine (spin self tjd w).2) = script_calls (engine w).
Proof.
  intros Hp Hno.
  destruct (cache_miss self tjd) eqn:Hmiss; [|by rewrite spin_cached].
  destruct w as [[st m tr] c lg ni].
  unfold orientation_of, registered_object in Hno. cbn [engine mem] in Hno.
  destruct (get_global (c_str (luaRotationObjectName self)) m) as [| | | |t| |] eqn:Hobj;
    try (erewrite spin_vanished by (done || by rewrite Hobj); by repeat split).
  erewrite spin_bad_orientation by done. by repeat split.
Qed.

Lemma spins_without_orientation times : ∀ self w,
  luaState self = shared_state →
  is_function (orientation_of self (engine w)) = false →
  (spins self times w).1.1 = replicate (length times) (lastOrientation self)
  ∧ (spins self times w).1.2 = self
  ∧ script_calls (engine (spins self times w).2) = script_calls (engine w).
Proof.
  induction times as [|tjd times IH]; intros self w Hp Hno; [done|].
  destruct (spin_without_orientation self tjd w Hp Hno) as (Hres & Hmem & Hcalls).
  cbn [spins length replicate fst snd]. rewrite Hres. cbn [fst snd].
  destruct (IH self (spin self tjd w).2 Hp) as (IH1 & IH2 & IH3).
  { unfold orientation_of, registered_object in *. by rewrite Hmem. }
  rewrite IH1, IH2, IH3. by rewrite Hcalls.
Qed.

End InitFacts.
(** ** The construction contract and the derived queries *)

Section InitTheorems.
Context {rt : Runtime}.

(** C3 (amended): every way through [spin] leaves the engine stack as it
    found it; so does every way through [initialize] that does not follow a
    successful module load, that is, whenever the parameters or the engine
    are absent, no module is asked for, [require] is unavailable or
    [require] raises; and a failed [initialize] has bound no global, except
    on the valid-range failure, which returns after the object was
    registered under the generated name and leaves it registered. *)
Theorem stack_discipline :
  (∀ self tjd w,
     luaState self = shared_state →
     stack (engine (spin self tjd w).2) = stack (engine w))
  ∧ (∀ self modname fn params path w,
       params = None ∨ scriptedObjectContext w = nullptr
       ∨ module_loads modname (mem (engine w)) = false →
       stack (engine (initialize self modname fn params path w).2)
       = stack (engine w))
  ∧ (∀ self modname fn params path w,
       (initialize self modname fn params path w).1.1 = false →
       let self' := (initialize self modname fn params path w).1.2 in
       let L' := engine (initialize self modname fn params path w).2 in
       bound_names (trace L') = bound_names (trace (engine w))
       ∨ ∃ t, registered_object self' L' = VTable t
              ∧ bound_names (trace L')
                = luaRotationObjectName self' :: bound_names (trace (engine w))
              ∧ (validRangeEnd self' <? validRangeBegin self')%float = true).
Proof.
  repeat split.
  - intros self tjd w Hp. by destruct (spin_effects self tjd w Hp).
  - intros self modname fn params path w Hcase.
    exact (initialize_stack self modname fn params path w Hcase).
  - intros self modname fn params path w Hok.
    exact (initialize_false self modname fn params path w Hok).
Qed.


(** C7: with the parameter table absent [initialize] returns failure at
    once: the object is untouched (no context was acquired) and so is the
    world (no engine call, no log entry). *)
Theorem initialize_without_parameters self modname fn path w :
  initialize self modname fn None path w = ((false, self), w).
Proof. reflexivity. Qed.

(** C10: [initialize] never looks at the [orientation] field.  Whether or
    not a module is loaded first, a generator that is found and returns a
    table whose range is not backwards makes it succeed, whatever the
    table's [orientation] is: that table is registered under the generated
    name, no table is changed, and [period], [beginDate] and [endDate]
    (0 when absent) are what the object takes from it.  And once
    [initialize] has succeeded on a table without a callable [orientation],
    every later [spin] returns the quaternion cached before construction
    and calls no script. *)
Theorem initialize_ignores_orientation :
  (∀ self modname fn ps path st m tr lg ni res m0 f vs m2 t,
     module_phase modname m = Some (res, m0) →
     get_global (c_str fn) m0 = VFunction f →
     call_function f [VTable (generator_table m0)] (generator_store ps path m0)
       = (Returns vs, m2) →
     vs !! 0%nat = Some (VTable t) →
     (number_field (VTable t) "endDate" 0 m2
        <? number_field (VTable t) "beginDate" 0 m2)%float = false →
     let R := initialize self modname fn (Some ps) path
                (MkWorld (State st m tr) shared_state lg ni) in
     R.1.1 = true
     ∧ registered_object R.1.2 (engine R.2) = VTable t
     ∧ tables (mem (engine R.2)) = tables m2
     ∧ period R.1.2 = number_field (VTable t) "period" 0 m2
     ∧ validRangeBegin R.1.2 = number_field (VTable t) "beginDate" 0 m2
     ∧ validRangeEnd R.1.2 = number_field (VTable t) "endDate" 0 m2)
  ∧ (∀ self modname fn params path w times,
       let r := initialize self modname fn params path w in
       r.1.1 = true →
       is_function (orientation_of r.1.2 (engine r.2)) = false →
       (spins r.1.2 times r.2).1.1
       = replicate (length times) (lastOrientation self)
       ∧ script_calls (engine (spins r.1.2 times r.2).2)
         = script_calls (engine r.2)).
Proof.
  split.
  - intros self modname fn ps path st m tr lg ni res m0 f vs m2 t
      Hphase Hfn Hcall Hvs Hrange. cbv zeta.
    destruct (initialize_registers self modname fn ps path st m tr lg ni
                res m0 f vs m2 t Hphase Hfn Hcall Hvs) as (HR & _ & Hmem & _).
    rewrite HR, Hrange. unfold registered_object. rewrite Hmem.
    cbn [fst snd negb luaRotationObjectName period validRangeBegin validRangeEnd
         set_validRangeEnd set_validRangeBegin set_period
         set_luaRotationObjectName mem tables].
    rewrite c_str_generated. unfold get_global. cbn [globals].
    by rewrite lookup_insert_eq.
  - intros self modname fn params path w times r Hok Hno. subst r.
    destruct (initialize_true self modname fn params path w Hok)
      as ((Hp & _ & Hlast & _) & _).
    destruct (spins_without_orientation times _ _ Hp Hno) as (Hres & _ & Hcalls).
    rewrite Hres, Hcalls, Hlast. done.
Qed.

End InitTheorems.

(** C6: [getPeriod] returns [validRangeEnd - validRangeBegin] when [period]
    equals 0 and [period] otherwise, and [isPeriodic] holds exactly when
    [period] differs from 0. *)
Theorem period_queries self :
  ((period self =? 0)%float = true →
   getPeriod self = (validRangeEnd self - validRangeBegin self)%float)
  ∧ ((period self =? 0)%float = false → getPeriod self = period self)
  ∧ (isPeriodic self = true ↔ (period self =? 0)%float = false).
Proof.
  unfold getPeriod, isPeriodic. repeat split.
  - by intros ->.
  - by intros ->.
  - by intros ?%negb_true_iff.
  - by intros ->.
Qed.

(** ** The statements on the sample scripts *)

(** The orientation of the model [makeBroken] builds raises: the cached
    quaternion comes back and the model is unchanged. *)
Lemma spin_soft_failure_witness :
  (@spin sample_runtime (model_of "makeBroken") 5 (world_of "makeBroken")).1
  = (lastOrientation (model_of "makeBroken"), model_of "makeBroken").
Proof.
  apply (@spin_soft_failure sample_runtime).
  - vm_compute. reflexivity.
  - eapply (@call_raises sample_runtime). vm_compute. reflexivity.
Defined.

(** Two evaluations in a row at time 5 of a cacheable model whose
    orientation raises: the script is called twice. *)
Lemma spin_twice_after_failure :
  cacheable (model_of "makeBroken") = true
  ∧ script_calls (engine (world_of "makeBroken")) = 1%nat
  ∧ script_calls
      (engine (@spin_twice sample_runtime (model_of "makeBroken") 5
                 (world_of "makeBroken")).2.2) = 3%nat.
Proof. vm_compute. auto. Qed.

(** Two evaluations in a row at NaN of a working cacheable model: the
    script is called twice, as NaN never equals [lastTime]. *)
Example spin_twice_at_nan :
  cacheable (model_of "makeSpin") = true
  ∧ script_calls (engine (world_of "makeSpin")) = 1%nat
  ∧ script_calls
      (engine (@spin_twice sample_runtime (model_of "makeSpin") nan
                 (world_of "makeSpin")).2.2) = 3%nat.
Proof. vm_compute. auto. Qed.

(** On the model [makeSpin] builds: a call at [lastTime] is served from the
    cache, and two calls at time 5 make one script call. *)
Lemma spin_cache_reuse_witness :
  @spin sample_runtime (model_of "makeSpin") (-1) (world_of "makeSpin")
  = ((lastOrientation (model_of "makeSpin"), model_of "makeSpin"), world_of "makeSpin")
  ∧ (@spin_twice sample_runtime (model_of "makeSpin") 5 (world_of "makeSpin")).2
    = (@spin_twice sample_runtime (model_of "makeSpin") 5 (world_of "makeSpin")).1
  ∧ script_calls
      (engine (@spin_twice sample_runtime (model_of "makeSpin") 5
                 (world_of "makeSpin")).2.2)
    = S (script_calls (engine (world_of "makeSpin"))).
Proof.
  split.
  - exact (proj1 (@spin_cache_reuse sample_runtime (model_of "makeSpin") (-1)
                    (world_of "makeSpin") ltac:(vm_compute; reflexivity))
                 ltac:(vm_compute; reflexivity)).
  - eapply (proj2 (@spin_cache_reuse sample_runtime (model_of "makeSpin") 5
                     (world_of "makeSpin") ltac:(vm_compute; reflexivity))
              100%positive 3%positive);
      vm_compute; reflexivity.
Defined.

(** The model [makeSpin] builds, evaluated at time 5. *)
Lemma spin_calls_orientation_witness :
  (@spin sample_runtime (model_of "makeSpin") 5 (world_of "makeSpin")).1.1
  = Quat 1 0 0 0
  ∧ lastTime (@spin sample_runtime (model_of "makeSpin") 5 (world_of "makeSpin")).1.2
    = 5%float.
Proof.
  destruct (@spin_calls_orientation sample_runtime (model_of "makeSpin") 5
              (world_of "makeSpin") 100 3 1 0 0 0
              (mem (engine (world_of "makeSpin"))))
    as (H1 & H2 & H3 & H4); try (vm_compute; reflexivity).
  split; [by rewrite H1|exact H3].
Defined.

(** The table [makeMute] returns has no [orientation]: the evaluation fails
    and nothing is logged. *)
Lemma spin_silent_failure :
  is_function (orientation_of (model_of "makeMute") (engine (world_of "makeMute")))
  = false
  ∧ cache_miss (model_of "makeMute") 5 = true
  ∧ logger (world_of "makeMute") = []
  ∧ logger (@spin sample_runtime (model_of "makeMute") 5 (world_of "makeMute")).2 = [].
Proof. vm_compute. auto. Qed.

(** A raising orientation is reported with its message, a missing one is
    not. *)
Lemma spin_failure_logging_witness :
  logger (@spin sample_runtime (model_of "makeBroken") 5 (world_of "makeBroken")).2
  = [LogEntry Warning ("ScriptedRotation failed: {}" +:+ nl) [Some "boom"]]
  ∧ logger (@spin sample_runtime (model_of "makeMute") 5 (world_of "makeMute")).2 = [].
Proof.
  split.
  - eapply (proj1 (@spin_failure_logging sample_runtime (model_of "makeBroken") 5
                     (world_of "makeBroken") ltac:(vm_compute; reflexivity)
                     ltac:(vm_compute; reflexivity)) 103%positive 6%positive
                  (VString "boom"));
      vm_compute; reflexivity.
  - eapply (proj2 (proj2 (@spin_failure_logging sample_runtime (model_of "makeMute") 5
                     (world_of "makeMute") ltac:(vm_compute; reflexivity)
                     ltac:(vm_compute; reflexivity))) 104%positive);
      vm_compute; reflexivity.
Defined.

(** With caching off, an evaluation at [lastTime] still calls the script. *)
Lemma spin_uncached_witness :
  (uncached_model.(lastTime) =? 5)%float = true
  ∧ ∃ evs,
      trace (engine (@spin sample_runtime uncached_model 5 (world_of "makeSpin")).2)
      = (evs ++ GetGlobal "cel_script_object_1"
             :: trace (engine (world_of "makeSpin")))%list
      ∧ PCall (VFunction 3) [VTable 100; VNumber 5] ∈ evs.
Proof.
  split; [reflexivity|].
  destruct (proj1 (@spin_uncached sample_runtime uncached_model 5
                     (world_of "makeSpin") eq_refl) eq_refl)
    as (evs & Htrace & Hcall).
  exists evs. split; [exact Htrace|].
  apply (Hcall 100%positive 3%positive); vm_compute; reflexivity.
Defined.

(** [makeBackwards] declares [endDate] 10 before [beginDate] 20:
    [initialize] fails, and the global it bound stays bound. *)
Lemma initialize_range_failure_stays_registered :
  (built "makeBackwards").1.1 = false
  ∧ get_global "cel_script_object_1" (mem (engine sample_world)) = VNil
  ∧ get_global "cel_script_object_1" (mem (engine (world_of "makeBackwards")))
    = VTable 101.
Proof. vm_compute. auto. Qed.

(** After [require] succeeded its result is never popped: whether the
    construction then fails ([version] is no function) or succeeds, the
    stack ends one deeper than it began. *)
Example initialize_leaks_module_result :
  stack (engine sample_world) = []
  ∧ (built_with_module "version").1.1 = false
  ∧ stack (engine (built_with_module "version").2) = [VBoolean true]
  ∧ (built_with_module "makeSpin").1.1 = true
  ∧ stack (engine (built_with_module "makeSpin").2) = [VBoolean true].
Proof. vm_compute. auto 6. Qed.

(** Stack and registrations on the sample scripts: an evaluation, a
    construction without module, a construction whose [require] raises, and
    a construction that fails before anything is registered. *)
Lemma stack_discipline_witness :
  stack (engine (@spin sample_runtime (model_of "makeSpin") 5 (world_of "makeSpin")).2)
  = stack (engine (world_of "makeSpin"))
  ∧ stack (engine (built "makeBroken").2) = stack (engine sample_world)
  ∧ stack (engine (@initialize sparse_runtime sample_rotation (Some "spinlib")
                     "makeLate" (Some sample_parameters) "/addons/spin"
                     sparse_world).2)
    = stack (engine sparse_world)
  ∧ bound_names (trace (engine (built "version").2))
    = bound_names (trace (engine sample_world)).
Proof.
  split; [|split; [|split]].
  - apply (proj1 (@stack_discipline sample_runtime)). vm_compute. reflexivity.
  - exact (proj1 (proj2 (@stack_discipline sample_runtime))
             sample_rotation None "makeBroken" (Some sample_parameters)
             "/addons/spin" sample_world ltac:(right; right; reflexivity)).
  - exact (proj1 (proj2 (@stack_discipline sparse_runtime))
             sample_rotation (Some "spinlib") "makeLate" (Some sample_parameters)
             "/addons/spin" sparse_world
             ltac:(right; right; vm_compute; reflexivity)).
  - destruct (proj2 (proj2 (@stack_discipline sample_runtime))
                sample_rotation None "version" (Some sample_parameters)
                "/addons/spin" sample_world ltac:(vm_compute; reflexivity))
      as [Hsame|(t & _ & _ & Hrange)]; [exact Hsame|].
    vm_compute in Hrange. discriminate Hrange.
Defined.



(** A periodic model, and an aperiodic one. *)
Lemma period_queries_witness :
  getPeriod (model_of "makeSpin") = period (model_of "makeSpin")
  ∧ isPeriodic (model_of "makeSpin") = true
  ∧ getPeriod sample_rotation
    = (validRangeEnd sample_rotation - validRangeBegin sample_rotation)%float.
Proof.
  split; [|split].
  - apply (proj1 (proj2 (period_queries (model_of "makeSpin")))).
    vm_compute. reflexivity.
  - apply (proj2 (proj2 (period_queries (model_of "makeSpin")))).
    vm_compute. reflexivity.
  - apply (proj1 (period_queries sample_rotation)). vm_compute. reflexivity.
Defined.

(** [makeMute] returns a table without [orientation]: construction
    succeeds, with or without the module [spinlib] loaded first, the table
    is registered, and three evaluations return the initial quaternion. *)
Lemma initialize_ignores_orientation_witness :
  ((built "makeMute").1.1 = true
   ∧ registered_object (model_of "makeMute") (engine (world_of "makeMute"))
     = VTable 104
   ∧ period (model_of "makeMute") = 1%float)
  ∧ (built_with_module "makeMute").1.1 = true
  ∧ (@spins sample_runtime (model_of "makeMute") [0; 5; 5]%float
       (world_of "makeMute")).1.1
    = replicate 3 (lastOrientation sample_rotation).
Proof.
  split; [|split].
  - destruct (proj1 (@initialize_ignores_orientation sample_runtime)
                sample_rotation None "makeMute" sample_parameters "/addons/spin"
                [] (Store sample_globals ∅) [] [] 1%N
                [] (Store sample_globals ∅) 8%positive [VTable 104]
                (sample_call 8 [VTable 1]
                   (generator_store sample_parameters "/addons/spin"
                      (Store sample_globals ∅))).2
                104%positive eq_refl ltac:(vm_compute; reflexivity)
                ltac:(vm_compute; reflexivity) eq_refl
                ltac:(vm_compute; reflexivity))
      as (Hok & Hobj & _ & Hperiod & _).
    split; [exact Hok|split; [exact Hobj|]].
    etrans; [exact Hperiod|]. vm_compute. reflexivity.
  - exact (proj1 (proj1 (@initialize_ignores_orientation sample_runtime)
                    sample_rotation (Some "spinlib") "makeMute" sample_parameters
                    "/addons/spin" [] (Store sample_globals ∅) [] [] 1%N
                    [VBoolean true] (Store sample_globals ∅) 8%positive
                    [VTable 104]
                    (sample_call 8 [VTable 1]
                   (generator_store sample_parameters "/addons/spin"
                      (Store sample_globals ∅))).2
                    104%positive ltac:(vm_compute; reflexivity)
                    ltac:(vm_compute; reflexivity)
                    ltac:(vm_compute; reflexivity) eq_refl
                    ltac:(vm_compute; reflexivity))).
  - apply (proj2 (@initialize_ignores_orientation sample_runtime)
             sample_rotation None "makeMute" (Some sample_parameters)
             "/addons/spin" sample_world [0; 5; 5]%float);
      vm_compute; reflexivity.
Defined.

(** A generator name with an embedded NUL is looked up by what precedes the
    NUL, while the message of a failed lookup shows the whole name. *)
Example initialize_looks_up_c_string :
  (built (String.append "makeSpin" (String Ascii.zero "x"))).1.1 = true
  ∧ logger (built (String.append "nothing" (String Ascii.zero "x"))).2
    = [LogEntry Error ("No Lua function named {} found." +:+ nl)
         [Some (String.append "nothing" (String Ascii.zero "x"))]].
Proof. vm_compute. auto. Qed.


(** ** Further properties of the evaluation *)

Section SpinExtras.
Context {rt : Runtime}.

(** The result of [spin] on each way through it, by the state it starts in. *)
Lemma spin_cases self tjd st m tr c lg ni :
  luaState self = shared_state →
  let w := MkWorld (State st m tr) c lg ni in
  (spin self tjd w).1 = (lastOrientation self, self)
  ∧ logger (spin self tjd w).2 = lg
    ∧ mem (engine (spin self tjd w).2) = m
    ∧ script_calls (engine (spin self tjd w).2) = script_calls (engine w)
    ∧ bound_names (trace (engine (spin self tjd w).2)) = bound_names tr
  ∨ (∃ t f e m',
       cache_miss self tjd = true
       ∧ get_global (c_str (luaRotationObjectName self)) m = VTable t
       ∧ get_field t "orientation" m = VFunction f
       ∧ call_function f [VTable t; VNumber tjd] m = (Raises e, m')
       ∧ spin self tjd w
         = ((lastOrientation self, self),
            add_log (LogEntry Warning ("ScriptedRotation failed: {}" +:+ nl) [text_of e])
              (after_calls [Pop 1; Pop 1; Query;
                            PCall (VFunction f) [VTable t; VNumber tjd];
                            Push; Push; Query; GetTable; Push; Query;
                            GetGlobal (c_str (luaRotationObjectName self))] st m' w)))
  ∨ (∃ t f vs m',
       cache_miss self tjd = true
       ∧ get_global (c_str (luaRotationObjectName self)) m = VTable t
       ∧ get_field t "orientation" m = VFunction f
       ∧ call_function f [VTable t; VNumber tjd] m = (Returns vs, m')
       ∧ spin self tjd w
         = ((Quat (result_number vs 0) (result_number vs 1)
                  (result_number vs 2) (result_number vs 3),
             set_lastTime tjd
               (set_lastOrientation
                  (Quat (result_number vs 0) (result_number vs 1)
                        (result_number vs 2) (result_number vs 3)) self)),
            after_calls [Pop 1; Pop 4; Query; Query; Query; Query;
                         PCall (VFunction f) [VTable t; VNumber tjd];
                         Push; Push; Query; GetTable; Push; Query;
                         GetGlobal (c_str (luaRotationObjectName self))] st m' w)).
Proof.
  intros Hp w. subst w.
  destruct (cache_miss self tjd) eqn:Hmiss;
    [|left; by rewrite spin_cached].
  destruct (get_global (c_str (luaRotationObjectName self)) m) as [| | | |t| |] eqn:Hobj;
    try (left; erewrite spin_vanished by (done || by rewrite Hobj); by repeat split).
  destruct (get_field t "orientation" m) as [| | | | |f|] eqn:Hfield;
    try (left; erewrite spin_bad_orientation by (done || by rewrite Hfield);
         by repeat split).
  destruct (call_function f [VTable t; VNumber tjd] m) as [[vs|e] m'] eqn:Hcall.
  - right; right. exists t, f, vs, m'. repeat split; try done.
    by erewrite spin_fresh.
  - right; left. exists t, f, e, m'. repeat split; try done.
    by erewrite spin_raises.
Qed.

(** [spin] changes nothing of the object but its two cache members. *)
Lemma spin_updates_cache_only self tjd w :
  luaState self = shared_state →
  (spin self tjd w).1.2
  = set_lastTime (lastTime (spin self tjd w).1.2)
      (set_lastOrientation (lastOrientation (spin self tjd w).1.2) self).
Proof.
  intros Hp. destruct w as [[st m tr] c lg ni].
  destruct (spin_cases self tjd st m tr c lg ni Hp)
    as [(-> & _)|[(t & f & e & m' & _ & _ & _ & _ & ->)
                 |(t & f & vs & m' & _ & _ & _ & _ & ->)]];
    cbn [fst snd]; by destruct self.
Qed.

(** X1: whatever happens, [spin] returns the quaternion its cache holds when
    it returns; it either leaves the object as it was or, having missed the
    cache, stores a new quaternion together with the evaluated time; and it
    never changes the engine pointer, the registered name, the period, the
    valid range or [cacheable]. *)
Theorem spin_returns_cache self tjd w :
  luaState self = shared_state →
  let self' := (spin self tjd w).1.2 in
  (spin self tjd w).1.1 = lastOrientation self'
  ∧ (self' = self ∨ (cache_miss self tjd = true ∧ lastTime self' = tjd))
  ∧ self' = set_lastTime (lastTime self') (set_lastOrientation (lastOrientation self') self).
Proof.
  intros Hp. destruct w as [[st m tr] c lg ni]. cbv zeta.
  destruct (spin_cases self tjd st m tr c lg ni Hp)
    as [(-> & _)|[(t & f & e & m' & _ & _ & _ & _ & ->)
                 |(t & f & vs & m' & Hmiss & _ & _ & _ & ->)]];
    cbn [fst snd]; repeat split; auto; by destruct self.
Qed.


(** X2: the orientation call is made for four results, whatever the script
    returns: missing results read as 0, results past the fourth are
    dropped, and the call still counts as a success that is cached.  A
    script returning nothing caches the zero quaternion. *)
Theorem spin_adjusts_results self tjd w t f vs m' :
  luaState self = shared_state →
  cache_miss self tjd = true →
  registered_object self (engine w) = VTable t →
  get_field t "orientation" (mem (engine w)) = VFunction f →
  call_function f [VTable t; VNumber tjd] (mem (engine w)) = (Returns vs, m') →
  let q := (spin self tjd w).1.1 in
  q = Quat (result_number vs 0) (result_number vs 1)
           (result_number vs 2) (result_number vs 3)
  ∧ lastOrientation (spin self tjd w).1.2 = q
  ∧ lastTime (spin self tjd w).1.2 = tjd
  ∧ (vs = [] → q = Quat 0 0 0 0)
  ∧ (∀ a b c d extra,
       vs = a :: b :: c :: d :: extra →
       q = Quat (default 0%float (to_number a)) (default 0%float (to_number b))
                (default 0%float (to_number c)) (default 0%float (to_number d))).
Proof.
  intros Hp Hmiss Hobj Hfield Hcall. destruct w as [[st m tr] c lg ni]. cbv zeta.
  erewrite spin_fresh by done. cbn [fst snd]. repeat split.
  - by intros ->.
  - by intros a b c0 d extra ->.
Qed.

(** X3: cache invalidation.  Once a call has stored a result for [t1], a
    call at a different time [t2] looks the object up again and, if the
    object still has a callable [orientation], calls it with [t2]. *)
Theorem spin_cache_invalidation self t1 t2 w :
  luaState self = shared_state →
  lastTime (spin self t1 w).1.2 = t1 →
  (t2 =? t1)%float = false →
  let self1 := (spin self t1 w).1.2 in
  let w1 := (spin self t1 w).2 in
  ∃ evs,
    trace (engine (spin self1 t2 w1).2)
    = (evs ++ GetGlobal (c_str (luaRotationObjectName self)) :: trace (engine w1))%list
    ∧ ∀ t f,
        registered_object self1 (engine w1) = VTable t →
        get_field t "orientation" (mem (engine w1)) = VFunction f →
        PCall (VFunction f) [VTable t; VNumber t2] ∈ evs.
Proof.
  intros Hp Hlast Hne. cbv zeta.
  pose proof (spin_updates_cache_only self t1 w Hp) as Hself.
  assert (luaState (spin self t1 w).1.2 = shared_state) as Hp1
    by (rewrite Hself; exact Hp).
  assert (luaRotationObjectName (spin self t1 w).1.2 = luaRotationObjectName self)
    as Hname by (by rewrite Hself).
  destruct (spin_effects (spin self t1 w).1.2 t2 (spin self t1 w).2 Hp1)
    as [_ Hlook].
  rewrite <- Hname. apply Hlook. unfold cache_miss. by rewrite Hlast, Hne.
Qed.

Lemma replicate_cons_app {A} n (x : A) l :
  (replicate n x ++ x :: l = x :: replicate n x ++ l)%list.
Proof. induction n as [|n IH]; [done|]. cbn. by rewrite IH. Qed.

(** X4: a script that keeps failing is called, and reported, on every
    evaluation: as long as the orientation call raises without changing
    what scripts see, each evaluation that misses the cache returns the
    cached quaternion, adds one warning to the log and makes one script
    call, and the object stays as it was. *)
Theorem spins_failing_script times : ∀ self w t f e,
  luaState self = shared_state →
  registered_object self (engine w) = VTable t →
  get_field t "orientation" (mem (engine w)) = VFunction f →
  (∀ tjd, call_function f [VTable t; VNumber tjd] (mem (engine w))
          = (Raises e, mem (engine w))) →
  Forall (λ tjd, cache_miss self tjd = true) times →
  (spins self times w).1.1 = replicate (length times) (lastOrientation self)
  ∧ (spins self times w).1.2 = self
  ∧ logger (spins self times w).2
    = (replicate (length times)
         (LogEntry Warning ("ScriptedRotation failed: {}" +:+ nl) [text_of e])
       ++ logger w)%list
  ∧ script_calls (engine (spins self times w).2)
    = (length times + script_calls (engine w))%nat.
Proof.
  induction times as [|tjd times IH]; intros self w t f e Hp Hobj Hfield Hcall Hmiss;
    [done|].
  apply Forall_cons in Hmiss as [Hmiss1 Hmiss].
  destruct w as [[st m tr] c lg ni]. cbn [engine mem] in *.
  cbn [spins]. cbv zeta.
  erewrite spin_raises by done. cbn [fst snd].
  match goal with
  | |- context [spins self times ?w1] =>
      destruct (IH self w1 t f e Hp Hobj Hfield Hcall Hmiss) as (IH1 & IH2 & IH3 & IH4)
  end.
  rewrite IH1, IH2, IH3, IH4. repeat split.
  - cbn [add_log logger length replicate]. apply replicate_cons_app.
  - cbn [add_log engine]. rewrite script_calls_after.
    match goal with
    | |- context [length (filter ?P ?l)] =>
        change (length (filter P l)) with 1%nat
    end.
    cbn [length engine]. lia.
Qed.

(** X5: [spin] binds no global and changes what scripts see only through
    the orientation call: either the store is as before, or it is the store
    the called function left. *)
Theorem spin_store_effect self tjd w :
  luaState self = shared_state →
  bound_names (trace (engine (spin self tjd w).2)) = bound_names (trace (engine w))
  ∧ (mem (engine (spin self tjd w).2) = mem (engine w)
     ∨ ∃ t f,
         registered_object self (engine w) = VTable t
         ∧ get_field t "orientation" (mem (engine w)) = VFunction f
         ∧ mem (engine (spin self tjd w).2)
           = (call_function f [VTable t; VNumber tjd] (mem (engine w))).2).
Proof.
  intros Hp. destruct w as [[st m tr] c lg ni].
  destruct (spin_cases self tjd st m tr c lg ni Hp)
    as [(_ & _ & Hmem & _ & Hnames)
       |[(t & f & e & m' & _ & Hobj & Hfield & Hcall & ->)
        |(t & f & vs & m' & _ & Hobj & Hfield & Hcall & ->)]].
  - split; [exact Hnames|by left].
  - split; [reflexivity|]. right. exists t, f. cbn. by rewrite Hcall.
  - split; [reflexivity|]. right. exists t, f. cbn. by rewrite Hcall.
Qed.

End SpinExtras.

(** ** Further properties of the construction

    Below, the module phase of a construction is [module_phase]: with no
    module asked for it leaves the stack and the store as they are; with a
    module that [require] loads it leaves [require]'s result on the stack.
    The generator is looked up under the C string of [funcName], the name
    up to its first NUL. *)

Section InitExtras.
Context {rt : Runtime}.

(** X6: whenever [initialize], past its module phase, finds the C string
    of [funcName] bound to a function [f], it calls [f] exactly once, and
    no other script after the module phase.  The one argument is a table
    that did not exist before, whose [AddonPath] field is the C string of
    [path], whatever the parameters declare; the call runs in the store so
    prepared, and [initialize] changes no table after it. *)
Theorem initialize_generator_argument self modname fn ps path st m tr lg ni
    res m0 f :
  module_phase modname m = Some (res, m0) →
  get_global (c_str fn) m0 = VFunction f →
  let R := initialize self modname fn (Some ps) path
             (MkWorld (State st m tr) shared_state lg ni) in
  tables m0 !! generator_table m0 = None
  ∧ get_field (generator_table m0) "AddonPath" (generator_store ps path m0)
    = VString (c_str path)
  ∧ filter is_pcall (trace (engine R.2))
    = (PCall (VFunction f) [VTable (generator_table m0)]
         :: module_calls modname m ++ filter is_pcall tr)%list
  ∧ tables (mem (engine R.2))
    = tables (call_function f [VTable (generator_table m0)]
                (generator_store ps path m0)).2.
Proof.
  intros Hphase Hfn. cbv zeta. split; [|split].
  - unfold generator_table. apply not_elem_of_dom. apply is_fresh.
  - unfold generator_store, rawset, get_field. cbn [tables store_entry].
    by rewrite lookup_insert_eq; cbn; rewrite lookup_insert_eq.
  - destruct (call_function f [VTable (generator_table m0)]
                (generator_store ps path m0)) as [[vs|e] m2] eqn:Hcall.
    + destruct (is_table (default VNil (vs !! 0%nat))) eqn:Hist.
      * destruct (vs !! 0%nat) as [[| | | |t| |]|] eqn:Hvs; try discriminate Hist.
        destruct (initialize_registers self modname fn ps path st m tr lg ni
                    res m0 f vs m2 t Hphase Hfn Hcall Hvs)
          as (_ & _ & Hmem & Hcalls & _).
        split; [exact Hcalls|]. by rewrite Hmem.
      * destruct (initialize_bad_value self modname fn ps path st m tr lg ni
                    res m0 f vs m2 Hphase Hfn Hcall Hist)
          as (_ & _ & Hmem & Hcalls & _).
        split; [exact Hcalls|]. by rewrite Hmem.
    + destruct (initialize_raises self modname fn ps path st m tr lg ni
                  res m0 f e m2 Hphase Hfn Hcall)
        as (_ & _ & Hmem & Hcalls & _).
      split; [exact Hcalls|]. by rewrite Hmem.
Qed.

(** X7: when the generator, found under the C string of [funcName] after
    the module phase, returns a table [t], [initialize] succeeds exactly
    when the [endDate] of [t] is not less than its [beginDate], each read
    as 0 when [t] does not declare it as a number.  So a table declaring
    neither bound is accepted with the range [(0, 0)], and a table
    declaring only a [beginDate] after 0 is rejected. *)
Theorem initialize_range_check self modname fn ps path st m tr lg ni
    res m0 f vs m2 t :
  module_phase modname m = Some (res, m0) →
  get_global (c_str fn) m0 = VFunction f →
  call_function f [VTable (generator_table m0)] (generator_store ps path m0)
    = (Returns vs, m2) →
  vs !! 0%nat = Some (VTable t) →
  let R := initialize self modname fn (Some ps) path
             (MkWorld (State st m tr) shared_state lg ni) in
  R.1.1 = negb (number_field (VTable t) "endDate" 0 m2
                  <? number_field (VTable t) "beginDate" 0 m2)%float
  ∧ (get_field t "beginDate" m2 = VNil →
     get_field t "endDate" m2 = VNil →
     R.1.1 = true ∧ getValidRange R.1.2 = (0%float, 0%float))
  ∧ (∀ b,
       get_field t "beginDate" m2 = VNumber b →
       get_field t "endDate" m2 = VNil →
       (0 <? b)%float = true →
       R.1.1 = false).
Proof.
  intros Hphase Hfn Hcall Hvs. cbv zeta.
  destruct (initialize_registers self modname fn ps path st m tr lg ni
              res m0 f vs m2 t Hphase Hfn Hcall Hvs) as (HR & _).
  rewrite HR. cbn [fst snd getValidRange validRangeBegin validRangeEnd
                   set_validRangeEnd set_validRangeBegin].
  unfold number_field. cbn [rawget]. split; [reflexivity|split].
  - intros Hb He. by rewrite Hb, He.
  - intros b Hb He Hpos. rewrite Hb, He. cbn [to_number default from_option id].
    change (default 0%float None) with 0%float.
    change (default 0%float (Some b)) with b. by rewrite Hpos.
Qed.

(** X8: construction and evaluation agree on the object.  When the
    generator, found under the C string of [funcName] after the module
    phase, returns a table [t] whose range is not backwards and whose
    [orientation] is a function [g], then [initialize] succeeds, [t] is
    what is registered under the generated name, and a [spin] that misses
    the cache calls [g] on [t] and the time: four numbers returned by it
    are the quaternion [spin] returns. *)
Theorem initialize_then_spin self modname fn ps path st m tr lg ni
    res m0 f vs m2 t g tjd qw qx qy qz m3 :
  module_phase modname m = Some (res, m0) →
  get_global (c_str fn) m0 = VFunction f →
  call_function f [VTable (generator_table m0)] (generator_store ps path m0)
    = (Returns vs, m2) →
  vs !! 0%nat = Some (VTable t) →
  (number_field (VTable t) "endDate" 0 m2
     <? number_field (VTable t) "beginDate" 0 m2)%float = false →
  get_field t "orientation" m2 = VFunction g →
  cache_miss self tjd = true →
  let R := initialize self modname fn (Some ps) path
             (MkWorld (State st m tr) shared_state lg ni) in
  call_function g [VTable t; VNumber tjd] (mem (engine R.2))
    = (Returns [VNumber qw; VNumber qx; VNumber qy; VNumber qz], m3) →
  R.1.1 = true
  ∧ registered_object R.1.2 (engine R.2) = VTable t
  ∧ (spin R.1.2 tjd R.2).1.1 = Quat qw qx qy qz.
Proof.
  intros Hphase Hfn Hcall Hvs Hrange Hg Hmiss. cbv zeta.
  destruct (initialize_registers self modname fn ps path st m tr lg ni
              res m0 f vs m2 t Hphase Hfn Hcall Hvs) as (HR & _ & Hmem & _).
  destruct (initialize self modname fn (Some ps) path
              (MkWorld (State st m tr) shared_state lg ni))
    as [[ok self'] [[st' m' tr'] c' lg' ni']].
  cbn [fst snd engine mem] in *. subst m'. rewrite Hrange in HR.
  injection HR as -> ->. intros Hspin.
  assert (get_global (c_str ("cel_script_object_" +:+ pretty ni))
            (Store (<["cel_script_object_" +:+ pretty ni := VTable t]> (globals m2))
                   (tables m2)) = VTable t) as Hobj.
  { rewrite c_str_generated. unfold get_global. cbn. by rewrite lookup_insert_eq. }
  repeat split; [exact Hobj|].
  match goal with
  | |- context [spin ?s tjd _] =>
      by rewrite (spin_fresh s tjd st' _ tr' c' lg' ni' t g _ m3
                    eq_refl Hmiss Hobj Hg Hspin)
  end.
Qed.

(** X9: [initialize] writes to the log exactly when it fails with a
    parameter table present, and then one message: a warning when scripting
    is disabled, an error otherwise.  A successful construction and a
    construction without parameters log nothing. *)
Theorem initialize_logs_once self modname fn params path w :
  let R := initialize self modname fn params path w in
  (R.1.1 = true → logger R.2 = logger w)
  ∧ (params = None → R.1.1 = false ∧ logger R.2 = logger w)
  ∧ (R.1.1 = false → is_Some params →
     ∃ entry, logger R.2 = entry :: logger w
              ∧ level entry
                = match scriptedObjectContext w with
                  | nullptr => Warning
                  | shared_state => Error
                  end).
Proof.
  cbv zeta. destruct params as [ps|]; [|by repeat split; try intros _ [? ?]].
  destruct w as [[st m tr] [|] lg ni].
  { repeat split; [discriminate|discriminate|]. intros _ _. by eexists. }
  initialize_paths self modname fn ps path st m tr lg ni;
    rewrite HR, Hlog; cbn [fst snd logger scriptedObjectContext];
    try (repeat split; try discriminate; intros _ _; by eexists).
  destruct (_ <? _)%float; cbn [negb app];
    repeat split; try discriminate; intros _ _; by eexists.
Qed.

(** X10: when a module is asked for and [require], called on the C string
    of its name, returns, the first value it returned (nil if none) stays
    on the engine stack: however [initialize] then ends, with success or
    with any of the later failures, the stack is one slot deeper than at
    entry. *)
Theorem initialize_module_leak self modname fn ps path st m tr lg ni f vs m1 :
  module_requested modname = true →
  get_global "require" m = VFunction f →
  call_function f [VString (c_str (default "" modname))] m = (Returns vs, m1) →
  stack (engine (initialize self modname fn (Some ps) path
                   (MkWorld (State st m tr) shared_state lg ni)).2)
  = default VNil (vs !! 0%nat) :: st.
Proof.
  intros Hmod Hreq Hload.
  assert (module_phase modname m = Some ([default VNil (vs !! 0%nat)], m1)) as Hp.
  { unfold module_phase. by rewrite Hmod, Hreq, Hload. }
  initialize_paths self modname fn ps path st m tr lg ni;
    try discriminate Hp; injection Hp as -> ->; by rewrite Hst.
Qed.

(** X11: when a module is asked for and cannot be loaded, because
    [require] is not a function or because it raises when called on the C
    string of the module's name, [initialize] fails without looking for the
    generator: the stack is as at entry, no name is generated, one error is
    logged, and the only script call is the call of [require], if it was
    made. *)
Theorem initialize_module_failure self modname fn ps path st m tr lg ni :
  module_requested modname = true →
  let R := initialize self modname fn (Some ps) path
             (MkWorld (State st m tr) shared_state lg ni) in
  (is_function (get_global "require" m) = false →
   R.1 = (false, set_luaState shared_state self)
   ∧ stack (engine R.2) = st
   ∧ mem (engine R.2) = m
   ∧ filter is_pcall (trace (engine R.2)) = filter is_pcall tr
   ∧ nameIndex R.2 = ni
   ∧ logger R.2
     = LogEntry Error
         ("Cannot load ScriptedRotation package: 'require' function is unavailable"
            +:+ nl) [] :: lg)
  ∧ (∀ f e m1,
       get_global "require" m = VFunction f →
       call_function f [VString (c_str (default "" modname))] m = (Raises e, m1) →
       R.1 = (false, set_luaState shared_state self)
       ∧ stack (engine R.2) = st
       ∧ mem (engine R.2) = m1
       ∧ filter is_pcall (trace (engine R.2))
         = PCall (VFunction f) [VString (c_str (default "" modname))]
             :: filter is_pcall tr
       ∧ nameIndex R.2 = ni
       ∧ logger R.2
         = LogEntry Error ("Failed to load module for ScriptedRotation: {}" +:+ nl)
             [text_of e] :: lg).
Proof.
  intros Hmod. cbv zeta. split.
  - intros Hreq.
    destruct (initialize_no_require self modname fn ps path st m tr lg ni Hmod Hreq)
      as (? & ? & ? & ? & _ & ? & ? & _).
    by repeat split.
  - intros f e m1 Hreq Hload.
    destruct (initialize_require_raises self modname fn ps path st m tr lg ni
                f e m1 Hmod Hreq Hload) as (? & ? & ? & ? & _ & ? & ? & _).
    by repeat split.
Qed.

(** X12: when, after the module phase, the C string of [funcName] is bound
    to no function, [initialize] fails having called no script but the
    [require] of the module phase and having changed nothing in the store:
    the stack is as the module phase left it (as at entry when no module
    was asked for), no global is bound, no name is generated, and the one
    error logged carries [funcName] whole. *)
Theorem initialize_function_missing self modname fn ps path st m tr lg ni res m0 :
  module_phase modname m = Some (res, m0) →
  is_function (get_global (c_str fn) m0) = false →
  let R := initialize self modname fn (Some ps) path
             (MkWorld (State st m tr) shared_state lg ni) in
  R.1 = (false, set_luaState shared_state self)
  ∧ stack (engine R.2) = (res ++ st)%list
  ∧ mem (engine R.2) = m0
  ∧ filter is_pcall (trace (engine R.2))
    = (module_calls modname m ++ filter is_pcall tr)%list
  ∧ bound_names (trace (engine R.2)) = bound_names tr
  ∧ nameIndex R.2 = ni
  ∧ logger R.2
    = LogEntry Error ("No Lua function named {} found." +:+ nl) [Some fn] :: lg.
Proof.
  intros Hphase Hfn. cbv zeta.
  destruct (initialize_missing self modname fn ps path st m tr lg ni res m0
              Hphase Hfn) as (? & ? & ? & ? & ? & ? & ? & _).
  by repeat split.
Qed.

(** X13: when the generator, found under the C string of [funcName] after
    the module phase, raises, or returns something whose first value is no
    table (or returns nothing at all), [initialize] fails with the stack as
    the module phase left it (as at entry when no module was asked for),
    no global bound and no name generated, and logs one error; the message
    of a raising generator carries the error text. *)
Theorem initialize_generator_failure self modname fn ps path st m tr lg ni
    res m0 f :
  module_phase modname m = Some (res, m0) →
  get_global (c_str fn) m0 = VFunction f →
  let R := initialize self modname fn (Some ps) path
             (MkWorld (State st m tr) shared_state lg ni) in
  (∀ e m2,
     call_function f [VTable (generator_table m0)] (generator_store ps path m0)
       = (Raises e, m2) →
     R.1 = (false, set_luaState shared_state self)
     ∧ stack (engine R.2) = (res ++ st)%list
     ∧ mem (engine R.2) = m2
     ∧ bound_names (trace (engine R.2)) = bound_names tr
     ∧ nameIndex R.2 = ni
     ∧ logger R.2
       = LogEntry Error
           ("Error calling ScriptedRotation generator function: {}" +:+ nl)
           [text_of e] :: lg)
  ∧ (∀ vs m2,
       call_function f [VTable (generator_table m0)] (generator_store ps path m0)
         = (Returns vs, m2) →
       is_table (default VNil (vs !! 0%nat)) = false →
       R.1 = (false, set_luaState shared_state self)
       ∧ stack (engine R.2) = (res ++ st)%list
       ∧ mem (engine R.2) = m2
       ∧ bound_names (trace (engine R.2)) = bound_names tr
       ∧ nameIndex R.2 = ni
       ∧ logger R.2
         = LogEntry Error
             ("ScriptedRotation generator function returned bad value." +:+ nl)
             [] :: lg).
Proof.
  intros Hphase Hfn. cbv zeta. split.
  - intros e m2 Hcall.
    destruct (initialize_raises self modname fn ps path st m tr lg ni
                res m0 f e m2 Hphase Hfn Hcall) as (? & ? & ? & _ & ? & ? & ? & _).
    by repeat split.
  - intros vs m2 Hcall Hbad.
    destruct (initialize_bad_value self modname fn ps path st m tr lg ni
                res m0 f vs m2 Hphase Hfn Hcall Hbad)
      as (? & ? & ? & _ & ? & ? & ? & _).
    by repeat split.
Qed.

End InitExtras.


(** X14: [initialize] does not reset the cache.  After a successful
    construction, a cacheable object evaluated at the time its cache held
    before returns the quaternion cached before, without any engine call. *)
Theorem initialize_keeps_cache `{rt : Runtime} self modname fn params path w tjd :
  (initialize self modname fn params path w).1.1 = true →
  cacheable self = true →
  (tjd =? lastTime self)%float = true →
  let R := initialize self modname fn params path w in
  spin R.1.2 tjd R.2 = ((lastOrientation self, R.1.2), R.2).
Proof.
  intros Hok Hc Heq. cbv zeta.
  destruct (initialize_true self modname fn params path w Hok)
    as ((_ & Hlast & Horient & Hcache) & _).
  rewrite spin_cached; [by rewrite Horient|].
  unfold cache_miss. by rewrite Hlast, Hcache, Heq, Hc.
Qed.

(** ** The further properties on the sample scripts *)

(** X1 on the model [makeSpin] builds, evaluated at time 5. *)
Lemma spin_returns_cache_witness :
  (@spin sample_runtime (model_of "makeSpin") 5 (world_of "makeSpin")).1.1
  = lastOrientation
      (@spin sample_runtime (model_of "makeSpin") 5 (world_of "makeSpin")).1.2.
Proof.
  exact (proj1 (@spin_returns_cache sample_runtime (model_of "makeSpin") 5
                  (world_of "makeSpin") ltac:(vm_compute; reflexivity))).
Defined.

(** X2: the orientation of [silent] returns nothing, and the zero
    quaternion is what [spin] returns and caches. *)
Lemma spin_adjusts_results_witness :
  (@spin sparse_runtime silent_model 5 sparse_world).1.1 = Quat 0 0 0 0
  ∧ lastTime (@spin sparse_runtime silent_model 5 sparse_world).1.2 = 5%float.
Proof.
  destruct (@spin_adjusts_results sparse_runtime silent_model 5 sparse_world
              7%positive 1%positive [] (mem (engine sparse_world))
              ltac:(reflexivity) ltac:(vm_compute; reflexivity)
              ltac:(vm_compute; reflexivity) ltac:(vm_compute; reflexivity)
              ltac:(reflexivity))
    as (_ & _ & Htime & Hzero & _).
  split; [exact (Hzero eq_refl)|exact Htime].
Defined.

(** X3: after an evaluation at 5, an evaluation at 6 calls the script. *)
Lemma spin_cache_invalidation_witness :
  ∃ evs,
    trace (engine
             (@spin sample_runtime
                (@spin sample_runtime (model_of "makeSpin") 5 (world_of "makeSpin")).1.2
                6
                (@spin sample_runtime (model_of "makeSpin") 5 (world_of "makeSpin")).2).2)
    = (evs ++ GetGlobal (c_str (luaRotationObjectName (model_of "makeSpin")))
           :: trace (engine (@spin sample_runtime (model_of "makeSpin") 5
                               (world_of "makeSpin")).2))%list
    ∧ PCall (VFunction 3) [VTable 100; VNumber 6] ∈ evs.
Proof.
  destruct (@spin_cache_invalidation sample_runtime (model_of "makeSpin") 5 6
              (world_of "makeSpin") ltac:(vm_compute; reflexivity)
              ltac:(vm_compute; reflexivity) ltac:(vm_compute; reflexivity))
    as (evs & Htrace & Hcall).
  exists evs. split; [exact Htrace|].
  apply (Hcall 100%positive 3%positive); vm_compute; reflexivity.
Defined.

(** X4: three evaluations of the model [makeBroken] builds. *)
Lemma spins_failing_script_witness :
  logger (@spins sample_runtime (model_of "makeBroken") [1; 2; 3]%float
            (world_of "makeBroken")).2
  = (replicate 3 (LogEntry Warning ("ScriptedRotation failed: {}" +:+ nl)
                    [Some "boom"])
     ++ logger (world_of "makeBroken"))%list
  ∧ script_calls (engine (@spins sample_runtime (model_of "makeBroken")
                            [1; 2; 3]%float (world_of "makeBroken")).2)
    = (3 + script_calls (engine (world_of "makeBroken")))%nat.
Proof.
  destruct (@spins_failing_script sample_runtime [1; 2; 3]%float
              (model_of "makeBroken") (world_of "makeBroken")
              103%positive 6%positive (VString "boom")
              ltac:(vm_compute; reflexivity) ltac:(vm_compute; reflexivity)
              ltac:(vm_compute; reflexivity) ltac:(intros; reflexivity)
              ltac:(repeat (constructor; [vm_compute; reflexivity|]); constructor))
    as (_ & _ & Hlog & Hcalls).
  split; [exact Hlog|exact Hcalls].
Defined.

(** X5 on the model [makeSpin] builds. *)
Lemma spin_store_effect_witness :
  bound_names (trace (engine (@spin sample_runtime (model_of "makeSpin") 5
                                (world_of "makeSpin")).2))
  = bound_names (trace (engine (world_of "makeSpin"))).
Proof.
  exact (proj1 (@spin_store_effect sample_runtime (model_of "makeSpin") 5
                  (world_of "makeSpin") ltac:(vm_compute; reflexivity))).
Defined.

(** X6 on the construction with [makeSpin] after loading [spinlib]. *)
Lemma initialize_generator_argument_witness :
  get_field (generator_table (Store sample_globals ∅)) "AddonPath"
    (generator_store sample_parameters "/addons/spin" (Store sample_globals ∅))
  = VString "/addons/spin"
  ∧ filter is_pcall (trace (engine (built_with_module "makeSpin").2))
    = [PCall (VFunction 2) [VTable (generator_table (Store sample_globals ∅))];
       PCall (VFunction 1) [VString "spinlib"]].
Proof.
  destruct (@initialize_generator_argument sample_runtime sample_rotation
              (Some "spinlib") "makeSpin" sample_parameters "/addons/spin" []
              (Store sample_globals ∅) [] [] 1%N
              [VBoolean true] (Store sample_globals ∅) 2%positive
              ltac:(vm_compute; reflexivity) ltac:(vm_compute; reflexivity))
    as (_ & Hpath & Hcalls & _).
  split; [exact Hpath|exact Hcalls].
Defined.

(** X7: [makeLate] declares only a [beginDate] and is rejected; [makeMute]
    declares no bound and is accepted with the range [(0, 0)]. *)
Lemma initialize_range_check_witness :
  (@initialize sparse_runtime sample_rotation None "makeLate"
     (Some sample_parameters) "/addons/spin" sparse_world).1.1 = false
  ∧ (built "makeMute").1.1 = true
  ∧ getValidRange (built "makeMute").1.2 = (0%float, 0%float).
Proof.
  split.
  - eapply (proj2 (proj2 (@initialize_range_check sparse_runtime sample_rotation None
              "makeLate" sample_parameters "/addons/spin" []
              (mem (engine sparse_world)) [] [] 1%N
              [] (mem (engine sparse_world))
              2%positive [VTable 50] _ 50%positive ltac:(reflexivity)
              ltac:(vm_compute; reflexivity) ltac:(reflexivity) ltac:(reflexivity)))
              2451545%float);
      vm_compute; reflexivity.
  - eapply (proj1 (proj2 (@initialize_range_check sample_runtime sample_rotation None
              "makeMute" sample_parameters "/addons/spin" []
              (Store sample_globals ∅) [] [] 1%N
              [] (Store sample_globals ∅)
              8%positive [VTable 104] _ 104%positive ltac:(reflexivity)
              ltac:(vm_compute; reflexivity) ltac:(reflexivity) ltac:(reflexivity))));
      vm_compute; reflexivity.
Defined.

(** X8: construction with [makeSpin], then an evaluation at time 5. *)
Lemma initialize_then_spin_witness :
  (built "makeSpin").1.1 = true
  ∧ (@spin sample_runtime (built "makeSpin").1.2 5 (built "makeSpin").2).1.1
    = Quat 1 0 0 0.
Proof.
  destruct (@initialize_then_spin sample_runtime sample_rotation None "makeSpin"
              sample_parameters "/addons/spin" [] (Store sample_globals ∅) [] [] 1%N
              [] (Store sample_globals ∅)
              2%positive [VTable 100] _ 100%positive 3%positive 5 1 0 0 0 _
              ltac:(reflexivity) ltac:(vm_compute; reflexivity) ltac:(reflexivity)
              ltac:(reflexivity) ltac:(vm_compute; reflexivity)
              ltac:(vm_compute; reflexivity) ltac:(vm_compute; reflexivity)
              ltac:(reflexivity))
    as (Hok & _ & Hspin).
  split; [exact Hok|exact Hspin].
Defined.

(** X9: the failed construction with [makeBackwards] logs one error, the
    successful one with [makeSpin] logs nothing. *)
Lemma initialize_logs_once_witness :
  logger (built "makeSpin").2 = logger sample_world
  ∧ ∃ entry, logger (built "makeBackwards").2 = entry :: logger sample_world
             ∧ level entry = Error.
Proof.
  split.
  - exact (proj1 (@initialize_logs_once sample_runtime sample_rotation None "makeSpin"
                    (Some sample_parameters) "/addons/spin" sample_world)
             ltac:(vm_compute; reflexivity)).
  - exact (proj2 (proj2 (@initialize_logs_once sample_runtime sample_rotation None
                           "makeBackwards" (Some sample_parameters) "/addons/spin"
                           sample_world))
             ltac:(vm_compute; reflexivity) ltac:(by eexists)).
Defined.

(** X10: the construction with module [spinlib]. *)
Lemma initialize_module_leak_witness :
  stack (engine (built_with_module "makeSpin").2) = [VBoolean true].
Proof.
  exact (@initialize_module_leak sample_runtime sample_rotation (Some "spinlib")
           "makeSpin" sample_parameters "/addons/spin" [] (Store sample_globals ∅)
           [] [] 1%N 1%positive [VBoolean true] _ ltac:(reflexivity)
           ltac:(vm_compute; reflexivity) ltac:(reflexivity)).
Defined.

(** X11: no [require] at all, and a [require] that raises. *)
Lemma initialize_module_failure_witness :
  (@initialize sample_runtime sample_rotation (Some "spinlib") "makeSpin"
     (Some sample_parameters) "/addons/spin" bare_world).1.1 = false
  ∧ logger (@initialize sparse_runtime sample_rotation (Some "spinlib") "makeLate"
              (Some sample_parameters) "/addons/spin" sparse_world).2
    = [LogEntry Error ("Failed to load module for ScriptedRotation: {}" +:+ nl)
         [Some "module not found"]].
Proof.
  split.
  - destruct (proj1 (@initialize_module_failure sample_runtime sample_rotation
                       (Some "spinlib") "makeSpin" sample_parameters "/addons/spin"
                       [] (Store ∅ ∅) [] [] 1%N ltac:(reflexivity))
                ltac:(vm_compute; reflexivity)) as (HR & _).
    exact (f_equal fst HR).
  - destruct (proj2 (@initialize_module_failure sparse_runtime sample_rotation
                       (Some "spinlib") "makeLate" sample_parameters "/addons/spin"
                       [] (mem (engine sparse_world)) [] [] 1%N ltac:(reflexivity))
                3%positive (VString "module not found") _
                ltac:(vm_compute; reflexivity) ltac:(reflexivity))
      as (_ & _ & _ & _ & _ & Hlog).
    exact Hlog.
Defined.

(** X12: [version] is bound to a string; and of a name with an embedded
    NUL the part before it is looked up, while the message shows it whole. *)
Lemma initialize_function_missing_witness :
  ((built "version").1.1 = false
   ∧ mem (engine (built "version").2) = mem (engine sample_world)
   ∧ logger (built "version").2
     = [LogEntry Error ("No Lua function named {} found." +:+ nl) [Some "version"]])
  ∧ logger (built (String.append "version" (String Ascii.zero "makeSpin"))).2
    = [LogEntry Error ("No Lua function named {} found." +:+ nl)
         [Some (String.append "version" (String Ascii.zero "makeSpin"))]].
Proof.
  split.
  - destruct (@initialize_function_missing sample_runtime sample_rotation None
                "version" sample_parameters "/addons/spin" []
                (Store sample_globals ∅) [] [] 1%N [] (Store sample_globals ∅)
                ltac:(reflexivity) ltac:(vm_compute; reflexivity))
      as (HR & _ & Hmem & _ & _ & _ & Hlog).
    split; [exact (f_equal fst HR)|split; [exact Hmem|exact Hlog]].
  - destruct (@initialize_function_missing sample_runtime sample_rotation None
                (String.append "version" (String Ascii.zero "makeSpin"))
                sample_parameters "/addons/spin" []
                (Store sample_globals ∅) [] [] 1%N [] (Store sample_globals ∅)
                ltac:(reflexivity) ltac:(vm_compute; reflexivity))
      as (_ & _ & _ & _ & _ & _ & Hlog).
    exact Hlog.
Defined.

(** X13: [makeFail] raises and [makeNothing] returns nothing. *)
Lemma initialize_generator_failure_witness :
  logger (@initialize sparse_runtime sample_rotation None "makeFail"
            (Some sample_parameters) "/addons/spin" sparse_world).2
  = [LogEntry Error ("Error calling ScriptedRotation generator function: {}" +:+ nl)
       [Some "module not found"]]
  ∧ logger (@initialize sparse_runtime sample_rotation None "makeNothing"
              (Some sample_parameters) "/addons/spin" sparse_world).2
    = [LogEntry Error
         ("ScriptedRotation generator function returned bad value." +:+ nl) []].
Proof.
  split.
  - destruct (proj1 (@initialize_generator_failure sparse_runtime sample_rotation None
                       "makeFail" sample_parameters "/addons/spin" []
                       (mem (engine sparse_world)) [] [] 1%N
                       [] (mem (engine sparse_world))
                       3%positive ltac:(reflexivity) ltac:(vm_compute; reflexivity))
                (VString "module not found") _ ltac:(reflexivity))
      as (_ & _ & _ & _ & _ & Hlog).
    exact Hlog.
  - destruct (proj2 (@initialize_generator_failure sparse_runtime sample_rotation None
                       "makeNothing" sample_parameters "/addons/spin" []
                       (mem (engine sparse_world)) [] [] 1%N
                       [] (mem (engine sparse_world))
                       1%positive ltac:(reflexivity) ltac:(vm_compute; reflexivity))
                [] _ ltac:(reflexivity) ltac:(reflexivity))
      as (_ & _ & _ & _ & _ & Hlog).
    exact Hlog.
Defined.

(** X14: the model [makeSpin] builds, evaluated at the time the object's
    cache held before construction. *)
Lemma initialize_keeps_cache_witness :
  @spin sample_runtime (built "makeSpin").1.2 (-1) (built "makeSpin").2
  = ((lastOrientation sample_rotation, (built "makeSpin").1.2), (built "makeSpin").2).
Proof.
  exact (@initialize_keeps_cache sample_runtime sample_rotation None "makeSpin"
           (Some sample_parameters) "/addons/spin" sample_world (-1)
           ltac:(vm_compute; reflexivity) ltac:(reflexivity)
           ltac:(vm_compute; reflexivity)).
Defined.
